(** * c10/cuda/CUDAFunctions.h: exception-raising wrappers around the CUDA runtime

    A shallow embedding of the header [c10/cuda/CUDAFunctions.h].  The
    header defines the class [WarningState] and the two inline wrappers
    [memcpy_and_sync] and [stream_synchronize]; it only declares
    [device_count], [device_count_ensure_non_zero], [device_synchronize],
    [warn_or_error_on_sync] and [warning_state], and it takes the macro
    [C10_CUDA_CHECK] from [c10/cuda/CUDAException.h].  The declared-only
    parts are modelled from the specification and are marked as such.

    C++ code runs in a monad [M] that threads the process state and may end
    with a thrown exception; a thrown exception keeps the state reached so
    far, as in C++. *)

From Stdlib Require Import ZArith List String Bool Lia.
Import ListNotations.

Open Scope Z_scope.

(** ** Types of the CUDA runtime API *)

(** [cudaError_t]: the status code every runtime call returns. *)
Definition cudaError_t := Z.
Definition cudaSuccess : cudaError_t := 0.

(** [c10::DeviceIndex], a small signed integer. *)
Definition DeviceIndex := Z.

(** [cudaStream_t] and [void*] are opaque handles. *)
Definition cudaStream_t := Z.
Definition void_ptr := Z.

Inductive cudaMemcpyKind :=
| cudaMemcpyHostToHost
| cudaMemcpyHostToDevice
| cudaMemcpyDeviceToHost
| cudaMemcpyDeviceToDevice
| cudaMemcpyDefault.

(** [int64_t nbytes] is passed where the runtime expects a [size_t]: the
    implicit conversion reduces modulo 2^64. *)
Definition INT64_MAX : Z := 2 ^ 63 - 1.
Definition size_t_of_int64 (n : Z) : Z := n mod 2 ^ 64.

(** The calls this layer makes into the runtime, with their arguments. *)
Inductive RuntimeCall :=
| cudaGetDeviceCount
| cudaGetDevice
| cudaSetDevice (device : DeviceIndex)
| cudaDeviceSynchronize
| cudaStreamSynchronize (stream : cudaStream_t)
| cudaMemcpyAsync (dst src : void_ptr) (count : Z)
                  (kind : cudaMemcpyKind) (stream : cudaStream_t)
| hipMemcpyWithStream (dst src : void_ptr) (count : Z)
                      (kind : cudaMemcpyKind) (stream : cudaStream_t).

(** The platform the header is compiled against: the runtime as an opaque
    state machine ([rt_call] gives the status code, the value written to
    the call's out-parameter if it has one, and the next runtime state),
    the status-description lookup, and the preprocessor symbol
    [HIP_VERSION] ([None] when it is not defined). *)
Class Platform := {
  rt_state : Type;
  rt_call : RuntimeCall -> rt_state -> cudaError_t * Z * rt_state;
  cudaGetErrorString : cudaError_t -> string;
  HIP_VERSION : option Z
}.

(** ** The header's own data: [SyncWarningLevel] and [WarningState] *)

Inductive SyncWarningLevel :=
| L_DISABLED
| L_WARN
| L_ERROR.

(** The enumerators' values: [L_DISABLED = 0], then counting up. *)
Definition SyncWarningLevel_value (l : SyncWarningLevel) : Z :=
  match l with
  | L_DISABLED => 0
  | L_WARN => 1
  | L_ERROR => 2
  end.

(** [operator!=] on the enum compares the underlying values. *)
Definition SyncWarningLevel_neb (a b : SyncWarningLevel) : bool :=
  negb (SyncWarningLevel_value a =? SyncWarningLevel_value b).

(** [class WarningState]: one private member. *)
Record WarningState := mkWarningState {
  sync_warning_level : SyncWarningLevel
}.

(** The default member initializer
    [sync_warning_level = SyncWarningLevel::L_DISABLED]. *)
Definition WarningState_new : WarningState :=
  {| sync_warning_level := L_DISABLED |}.

(** [void set_sync_warning_level(SyncWarningLevel l)
      { sync_warning_level = l; }] *)
Definition set_sync_warning_level (l : SyncWarningLevel)
  (this : WarningState) : WarningState :=
  {| sync_warning_level := l |}.

(** [SyncWarningLevel get_sync_warning_level()
      { return sync_warning_level; }] *)
Definition get_sync_warning_level (this : WarningState) : SyncWarningLevel :=
  sync_warning_level this.

(** ** Exceptions and observable events *)

Inductive Exception :=
| RuntimeError (code : cudaError_t) (description : string)
| NoDevicesError
| SyncEscalationError.

(** What an observer of the process can count: calls into the runtime,
    entries into the escalation hook, and non-fatal diagnostics. *)
Inductive Event :=
| EvRuntime (c : RuntimeCall)
| EvEscalation
| EvDiagnostic (msg : string).

Inductive Result (A : Type) :=
| Returned (a : A)
| Raised (e : Exception).
Arguments Returned {A} a.
Arguments Raised {A} e.

Section Process.

Context {P : Platform}.

(** The process state: the two function-local statics (empty until first
    use), the runtime's state, and the events so far, oldest first. *)
Record World := mkWorld {
  warning_state_static : option WarningState;
  device_count_static : option DeviceIndex;
  runtime : rt_state;
  trace : list Event
}.

(** A process that has just started on runtime state [r]. *)
Definition fresh_process (r : rt_state) : World :=
  {| warning_state_static := None;
     device_count_static := None;
     runtime := r;
     trace := [] |}.

(** *** The monad of C++ computations *)

Definition M (A : Type) : Type := World -> Result A * World.

Definition ret {A} (a : A) : M A := fun w => (Returned a, w).

Definition bind {A B} (m : M A) (k : A -> M B) : M B :=
  fun w =>
    match m w with
    | (Returned a, w') => k a w'
    | (Raised e, w') => (Raised e, w')
    end.

(** [throw] *)
Definition raise {A} (e : Exception) : M A := fun w => (Raised e, w).

(** [try { m } catch (...) { handler }] *)
Definition try_catch {A} (m : M A) (handler : Exception -> M A) : M A :=
  fun w =>
    match m w with
    | (Returned a, w') => (Returned a, w')
    | (Raised e, w') => handler e w'
    end.

Definition emit (e : Event) : M unit :=
  fun w =>
    (Returned tt,
     {| warning_state_static := warning_state_static w;
        device_count_static := device_count_static w;
        runtime := runtime w;
        trace := trace w ++ [e] |}).

End Process.

Declare Scope cxx_scope.
Delimit Scope cxx_scope with cxx.
Notation "x <- m ;; k" := (bind m (fun x => k))
  (at level 61, m at next level, right associativity) : cxx_scope.
Notation "m ;; k" := (bind m (fun _ => k))
  (at level 61, right associativity) : cxx_scope.

Section Wrappers.

Context {P : Platform}.
Local Open Scope cxx_scope.

(** A call into the runtime: the runtime moves to its next state, the call
    is recorded, and the status code and out-parameter come back. *)
Definition runtime_call (c : RuntimeCall) : M (cudaError_t * Z) :=
  fun w =>
    let '(status, out, r') := rt_call c (runtime w) in
    (Returned (status, out),
     {| warning_state_static := warning_state_static w;
        device_count_static := device_count_static w;
        runtime := r';
        trace := trace w ++ [EvRuntime c] |}).

(** Modelled from the spec: the body of the macro [C10_CUDA_CHECK] (it is
    defined in [c10/cuda/CUDAException.h]).  Section 4.1: if the status
    denotes success, do nothing; otherwise raise a RuntimeError carrying
    the code and the message obtained from the description lookup. *)
Definition check_status (status : cudaError_t) : M unit :=
  if status =? cudaSuccess then ret tt
  else raise (RuntimeError status (cudaGetErrorString status)).

(** [C10_CUDA_CHECK(EXPR)]: evaluate the call, then check its status. *)
Definition C10_CUDA_CHECK (expr : M (cudaError_t * Z)) : M unit :=
  r <- expr ;; check_status (fst r).

(** Modelled from the spec: the body of [warning_state()] (only declared in
    the header).  Section 3: a singleton created on first access, holding
    one level that defaults to Disabled.  The call yields the object as it
    is now. *)
Definition warning_state : M WarningState :=
  fun w =>
    match warning_state_static w with
    | Some s => (Returned s, w)
    | None =>
        (Returned WarningState_new,
         {| warning_state_static := Some WarningState_new;
            device_count_static := device_count_static w;
            runtime := runtime w;
            trace := trace w |})
    end.

(** A write through the reference [warning_state()] returned. *)
Definition warning_state_assign (s : WarningState) : M unit :=
  fun w =>
    (Returned tt,
     {| warning_state_static := Some s;
        device_count_static := device_count_static w;
        runtime := runtime w;
        trace := trace w |}).

(** The level a read of the singleton gives in world [w]. *)
Definition current_level (w : World) : SyncWarningLevel :=
  match warning_state_static w with
  | Some s => get_sync_warning_level s
  | None => get_sync_warning_level WarningState_new
  end.

(** [warning_state().set_sync_warning_level(l)] *)
Definition call_set_sync_warning_level (l : SyncWarningLevel) : M unit :=
  s <- warning_state ;; warning_state_assign (set_sync_warning_level l s).

(** [warning_state().get_sync_warning_level()] *)
Definition call_get_sync_warning_level : M SyncWarningLevel :=
  s <- warning_state ;; ret (get_sync_warning_level s).

(** Modelled from the spec: the body of [warn_or_error_on_sync()] (only
    declared in the header).  Section 4.3: inspect the current level;
    Disabled is a no-op, Warn emits a non-fatal diagnostic and continues,
    Error raises at once.  Entry into the hook is recorded, which is the
    call counter the specification's tests put on it. *)
Definition warn_or_error_on_sync : M unit :=
  emit EvEscalation ;;
  s <- warning_state ;;
  match get_sync_warning_level s with
  | L_DISABLED => ret tt
  | L_WARN => emit (EvDiagnostic "called a synchronizing CUDA operation")
  | L_ERROR => raise SyncEscalationError
  end.

(** [#if defined(HIP_VERSION) && (HIP_VERSION >= 301)] *)
Definition hip_has_memcpy_with_stream : bool :=
  match HIP_VERSION with
  | Some v => 301 <=? v
  | None => false
  end.

(** [memcpy_and_sync], lines 67-83 of the header. *)
Definition memcpy_and_sync (dst src : void_ptr) (nbytes : Z)
  (kind : cudaMemcpyKind) (stream : cudaStream_t) : M unit :=
  s <- warning_state ;;
  (if SyncWarningLevel_neb (get_sync_warning_level s) L_DISABLED
   then warn_or_error_on_sync
   else ret tt) ;;
  if hip_has_memcpy_with_stream then
    C10_CUDA_CHECK
      (runtime_call
         (hipMemcpyWithStream dst src (size_t_of_int64 nbytes) kind stream))
  else
    C10_CUDA_CHECK
      (runtime_call
         (cudaMemcpyAsync dst src (size_t_of_int64 nbytes) kind stream)) ;;
    C10_CUDA_CHECK (runtime_call (cudaStreamSynchronize stream)).

(** [stream_synchronize], lines 85-90 of the header. *)
Definition stream_synchronize (stream : cudaStream_t) : M unit :=
  s <- warning_state ;;
  (if SyncWarningLevel_neb (get_sync_warning_level s) L_DISABLED
   then warn_or_error_on_sync
   else ret tt) ;;
  C10_CUDA_CHECK (runtime_call (cudaStreamSynchronize stream)).

(** *** Device registry (declared in the header, defined elsewhere) *)

Definition device_count_assign (n : DeviceIndex) : M unit :=
  fun w =>
    (Returned tt,
     {| warning_state_static := warning_state_static w;
        device_count_static := Some n;
        runtime := runtime w;
        trace := trace w |}).

(** The checked enumeration query that [device_count] runs on first use. *)
Definition query_device_count : M DeviceIndex :=
  r <- runtime_call cudaGetDeviceCount ;;
  check_status (fst r) ;;
  ret (snd r).

(** Modelled from the spec: the body of [device_count()] (declared
    [noexcept] in the header, defined elsewhere).  Section 4.2: return the
    cached count; on the first call query the runtime, and if the query
    fails log a diagnostic and cache and return 0; later calls return the
    cached value without querying again. *)
Definition device_count : M DeviceIndex :=
  fun w =>
    match device_count_static w with
    | Some n => (Returned n, w)
    | None =>
        (n <- try_catch query_device_count
                (fun _ =>
                   emit (EvDiagnostic "CUDA initialization failed") ;;
                   ret 0) ;;
         device_count_assign n ;;
         ret n) w
    end.

(** Modelled from the spec: the body of [device_count_ensure_non_zero()]
    (only declared in the header).  Section 4.2: call [device_count()]; if
    the result is 0 raise the no-devices error, otherwise return it. *)
Definition device_count_ensure_non_zero : M DeviceIndex :=
  count <- device_count ;;
  if count =? 0 then raise NoDevicesError else ret count.

(** Modelled from the spec: the body of [current_device()] (only declared
    in the header).  Section 4.2: query the runtime for the active device;
    a failure is translated and propagated. *)
Definition current_device : M DeviceIndex :=
  r <- runtime_call cudaGetDevice ;;
  check_status (fst r) ;;
  ret (snd r).

(** Modelled from the spec: the body of [set_device()] (only declared in
    the header).  Section 4.2: ask the runtime to switch the active device;
    the bounds check is the runtime's. *)
Definition set_device (device : DeviceIndex) : M unit :=
  C10_CUDA_CHECK (runtime_call (cudaSetDevice device)).

(** Modelled from the spec: the body of [device_synchronize()] (only
    declared in the header).  Section 4.2: block until the current device
    is idle; a failure is translated and propagated; the call does not go
    through the warning state. *)
Definition device_synchronize : M unit :=
  C10_CUDA_CHECK (runtime_call cudaDeviceSynchronize).

(** *** Processes: sequences of calls on the exposed operations *)

Inductive ApiCall :=
| api_device_count
| api_device_count_ensure_non_zero
| api_current_device
| api_set_device (device : DeviceIndex)
| api_device_synchronize
| api_get_sync_warning_level
| api_set_sync_warning_level (l : SyncWarningLevel)
| api_memcpy_and_sync (dst src : void_ptr) (nbytes : Z)
                      (kind : cudaMemcpyKind) (stream : cudaStream_t)
| api_stream_synchronize (stream : cudaStream_t).

Inductive Value :=
| VVoid
| VIndex (d : DeviceIndex)
| VLevel (l : SyncWarningLevel).

Definition exec (c : ApiCall) : M Value :=
  match c with
  | api_device_count => n <- device_count ;; ret (VIndex n)
  | api_device_count_ensure_non_zero =>
      n <- device_count_ensure_non_zero ;; ret (VIndex n)
  | api_current_device => d <- current_device ;; ret (VIndex d)
  | api_set_device d => set_device d ;; ret VVoid
  | api_device_synchronize => device_synchronize ;; ret VVoid
  | api_get_sync_warning_level =>
      l <- call_get_sync_warning_level ;; ret (VLevel l)
  | api_set_sync_warning_level l =>
      call_set_sync_warning_level l ;; ret VVoid
  | api_memcpy_and_sync dst src nbytes kind stream =>
      memcpy_and_sync dst src nbytes kind stream ;; ret VVoid
  | api_stream_synchronize stream =>
      stream_synchronize stream ;; ret VVoid
  end.

(** A caller that makes the calls one after the other and goes on after an
    exception; the outcome of every call is kept, oldest first. *)
Fixpoint run (calls : list ApiCall) (w : World)
  : list (ApiCall * Result Value) * World :=
  match calls with
  | [] => ([], w)
  | c :: rest =>
      let (r, w1) := exec c w in
      let (log, w2) := run rest w1 in
      ((c, r) :: log, w2)
  end.

(** The calls on the two synchronization wrappers. *)
Definition is_sync_call (c : ApiCall) : bool :=
  match c with
  | api_memcpy_and_sync _ _ _ _ _ => true
  | api_stream_synchronize _ => true
  | _ => false
  end.

(** *** Counters over the trace *)

Definition is_runtime_call (e : Event) : bool :=
  match e with EvRuntime _ => true | _ => false end.

Definition is_enumeration (e : Event) : bool :=
  match e with EvRuntime cudaGetDeviceCount => true | _ => false end.

Definition is_escalation (e : Event) : bool :=
  match e with EvEscalation => true | _ => false end.

Definition count_events (p : Event -> bool) (t : list Event) : nat :=
  List.length (filter p t).

(** The runtime calls of a trace, in order. *)
Fixpoint runtime_calls (t : list Event) : list RuntimeCall :=
  match t with
  | [] => []
  | EvRuntime c :: t' => c :: runtime_calls t'
  | _ :: t' => runtime_calls t'
  end.

(** [n] calls of [m] in a row, with the outcome of each. *)
Fixpoint call_n_times {A} (n : nat) (m : M A) (w : World)
  : list (Result A) * World :=
  match n with
  | O => ([], w)
  | S k =>
      let (r, w1) := m w in
      let (rs, w2) := call_n_times k m w1 in
      (r :: rs, w2)
  end.

(** The device-count results among the outcomes of a process. *)
Fixpoint device_count_results (log : list (ApiCall * Result Value))
  : list (Result Value) :=
  match log with
  | [] => []
  | (api_device_count, r) :: rest => r :: device_count_results rest
  | _ :: rest => device_count_results rest
  end.

(** Every outcome in the list is a normal return of the index [v]. *)
Definition all_return (v : DeviceIndex) (rs : list (Result Value)) : Prop :=
  Forall (fun r => r = Returned (VIndex v)) rs.

(** *** The runtime's answers *)

Definition rt_status (c : RuntimeCall) (r : rt_state) : cudaError_t :=
  fst (fst (rt_call c r)).

Definition rt_next (c : RuntimeCall) (r : rt_state) : rt_state :=
  snd (rt_call c r).

(** The runtime, started in state [r], answers every call of the sequence
    with success. *)
Fixpoint runtime_accepts (calls : list RuntimeCall) (r : rt_state) : bool :=
  match calls with
  | [] => true
  | c :: rest =>
      (rt_status c r =? cudaSuccess) && runtime_accepts rest (rt_next c r)
  end.

(** The outcome the status check gives for a status. *)
Definition status_result (status : cudaError_t) : Result unit :=
  if status =? cudaSuccess then Returned tt
  else Raised (RuntimeError status (cudaGetErrorString status)).

(** The world after the runtime has served call [c]. *)
Definition after_call (c : RuntimeCall) (w : World) : World :=
  {| warning_state_static := warning_state_static w;
     device_count_static := device_count_static w;
     runtime := rt_next c (runtime w);
     trace := trace w ++ [EvRuntime c] |}.

(** The world after the warning-state singleton has been read, so that it
    exists from then on, and the events [evs] have been recorded. *)
Definition after_policy_check (evs : list Event) (w : World) : World :=
  {| warning_state_static := Some (mkWarningState (current_level w));
     device_count_static := device_count_static w;
     runtime := runtime w;
     trace := trace w ++ evs |}.

(** *** The two-phase protocol of the wrappers

    Both inline wrappers have the same shape: the guarded call of the hook,
    then checked runtime calls one after the other, where the first failed
    check throws and ends the function. *)

(** The events phase 1 records at level [l]. *)
Definition policy_events (l : SyncWarningLevel) : list Event :=
  match l with
  | L_DISABLED => []
  | L_WARN =>
      [EvEscalation; EvDiagnostic "called a synchronizing CUDA operation"]
  | L_ERROR => [EvEscalation]
  end.

(** The runtime calls [memcpy_and_sync] has in its body for the build at
    hand, in program order (lines 77-82). *)
Definition memcpy_plan (dst src : void_ptr) (nbytes : Z)
  (kind : cudaMemcpyKind) (stream : cudaStream_t) : list RuntimeCall :=
  if hip_has_memcpy_with_stream
  then [hipMemcpyWithStream dst src (size_t_of_int64 nbytes) kind stream]
  else [cudaMemcpyAsync dst src (size_t_of_int64 nbytes) kind stream;
        cudaStreamSynchronize stream].

(** The runtime state after it has served the calls in order. *)
Definition rt_run (calls : list RuntimeCall) (r : rt_state) : rt_state :=
  fold_left (fun r c => rt_next c r) calls r.

(** The world after the runtime has served the calls in order. *)
Definition after_calls (calls : list RuntimeCall) (w : World) : World :=
  fold_left (fun w c => after_call c w) calls w.

(** Checked calls in sequence: the outcome, and how many were made. *)
Fixpoint plan_outcome (calls : list RuntimeCall) (r : rt_state)
  : Result unit :=
  match calls with
  | [] => Returned tt
  | c :: rest =>
      if rt_status c r =? cudaSuccess
      then plan_outcome rest (rt_next c r)
      else Raised (RuntimeError (rt_status c r)
                     (cudaGetErrorString (rt_status c r)))
  end.

Fixpoint calls_made (calls : list RuntimeCall) (r : rt_state) : nat :=
  match calls with
  | [] => O
  | c :: rest =>
      S (if rt_status c r =? cudaSuccess
         then calls_made rest (rt_next c r)
         else O)
  end.

(** The protocol run on a plan of runtime calls. *)
Definition protocol (plan : list RuntimeCall) (w : World)
  : Result unit * World :=
  match current_level w with
  | L_ERROR =>
      (Raised SyncEscalationError,
       after_policy_check (policy_events L_ERROR) w)
  | l =>
      (plan_outcome plan (runtime w),
       after_calls (firstn (calls_made plan (runtime w)) plan)
         (after_policy_check (policy_events l) w))
  end.

(** The calls of the HIP-only combined primitive. *)
Definition is_hip_call (c : RuntimeCall) : bool :=
  match c with
  | hipMemcpyWithStream _ _ _ _ _ => true
  | _ => false
  end.

(** The level the last [set_sync_warning_level] call of a sequence sets,
    [l0] if there is none. *)
Fixpoint last_set_level (calls : list ApiCall) (l0 : SyncWarningLevel)
  : SyncWarningLevel :=
  match calls with
  | [] => l0
  | api_set_sync_warning_level l :: rest => last_set_level rest l
  | _ :: rest => last_set_level rest l0
  end.

(** Going from [w] to [w'] left the warning level as it was. *)
Definition same_level (w w' : World) : Prop :=
  current_level w' = current_level w.

Definition INT64_MIN : Z := - 2 ^ 63.

(** *** Frames

    [frame p w w'] says that going from [w] to [w'] left the cached device
    count alone and added no event that [p] selects.  A computation
    respects a relation on worlds when every run of it is within the
    relation, whether it returns or raises. *)
Definition frame (p : Event -> bool) (w w' : World) : Prop :=
  device_count_static w' = device_count_static w /\
  filter p (trace w') = filter p (trace w).

Definition respects {A} (R : World -> World -> Prop) (m : M A) : Prop :=
  forall w, R w (snd (m w)).

(** The invariant of the device-count cache: the enumeration query has run
    at most once, and not at all while the cache is empty. *)
Definition cache_inv (w : World) : Prop :=
  match device_count_static w with
  | None => count_events is_enumeration (trace w) = O
  | Some _ => (count_events is_enumeration (trace w) <= 1)%nat
  end.

End Wrappers.

(** ** A simulated runtime

    The runtime of the specification's concrete scenario: a fixed number of
    devices, an active device, and a driver that may be unusable.  Device
    enumeration fails without a driver; switching to a device out of range
    fails; the other calls succeed. *)

Record SimState := mkSim {
  sim_driver_ok : bool;
  sim_devices : Z;
  sim_active : Z
}.

Definition cudaErrorInsufficientDriver : cudaError_t := 35.
Definition cudaErrorInvalidDevice : cudaError_t := 101.

Definition sim_call (c : RuntimeCall) (s : SimState)
  : cudaError_t * Z * SimState :=
  match c with
  | cudaGetDeviceCount =>
      if sim_driver_ok s then (cudaSuccess, sim_devices s, s)
      else (cudaErrorInsufficientDriver, 0, s)
  | cudaGetDevice => (cudaSuccess, sim_active s, s)
  | cudaSetDevice d =>
      if (0 <=? d) && (d <? sim_devices s)
      then (cudaSuccess, 0,
            {| sim_driver_ok := sim_driver_ok s;
               sim_devices := sim_devices s;
               sim_active := d |})
      else (cudaErrorInvalidDevice, 0, s)
  | _ => (cudaSuccess, 0, s)
  end.

Definition sim_describe (code : cudaError_t) : string :=
  if code =? cudaErrorInsufficientDriver then "insufficient driver"
  else if code =? cudaErrorInvalidDevice then "invalid device ordinal"
  else "unspecified failure".

Definition sim_platform (hip : option Z) : Platform :=
  {| rt_state := SimState;
     rt_call := sim_call;
     cudaGetErrorString := sim_describe;
     HIP_VERSION := hip |}.



Definition sim_two_devices : SimState :=
  {| sim_driver_ok := true; sim_devices := 2; sim_active := 0 |}.

Definition sim_no_driver : SimState :=
  {| sim_driver_ok := false; sim_devices := 0; sim_active := 0 |}.

(** A process on the simulated runtime: just started, and after the
    warning level has been set. *)
Definition sim_world (hip : option Z) (s : SimState)
  : @World (sim_platform hip) :=
  @fresh_process (sim_platform hip) s.

Definition sim_world_at_level (hip : option Z) (l : SyncWarningLevel)
  (s : SimState) : @World (sim_platform hip) :=
  snd (@call_set_sync_warning_level (sim_platform hip) l (sim_world hip s)).

(** ** Properties *)

Section Properties.

Context {P : Platform}.
Local Open Scope cxx_scope.

(** *** The monad and the frame rules *)

Section FrameRules.

Variable R : World -> World -> Prop.
Hypothesis R_refl : forall w, R w w.
Hypothesis R_trans : forall a b c, R a b -> R b c -> R a c.

Lemma respects_ret {A} (a : A) : respects R (ret a).
Proof. intros w. apply R_refl. Qed.

Lemma respects_raise {A} (e : Exception) : respects R (@raise _ A e).
Proof. intros w. apply R_refl. Qed.

Lemma respects_bind {A B} (m : M A) (k : A -> M B) :
  respects R m -> (forall a, respects R (k a)) -> respects R (bind m k).
Proof.
  intros Hm Hk w. unfold bind.
  specialize (Hm w). destruct (m w) as [[a | e] w1]; simpl in *.
  - eapply R_trans; [exact Hm | apply Hk].
  - exact Hm.
Qed.

Lemma respects_try_catch {A} (m : M A) (h : Exception -> M A) :
  respects R m -> (forall e, respects R (h e)) -> respects R (try_catch m h).
Proof.
  intros Hm Hh w. unfold try_catch.
  specialize (Hm w). destruct (m w) as [[a | e] w1]; simpl in *.
  - exact Hm.
  - eapply R_trans; [exact Hm | apply Hh].
Qed.

Lemma respects_if {A} (b : bool) (m1 m2 : M A) :
  respects R m1 -> respects R m2 -> respects R (if b then m1 else m2).
Proof. destruct b; auto. Qed.

End FrameRules.

Lemma frame_refl p w : frame p w w.
Proof. split; reflexivity. Qed.

Lemma frame_trans p a b c : frame p a b -> frame p b c -> frame p a c.
Proof. intros [H1 H2] [H3 H4]. split; congruence. Qed.

Lemma filter_snoc_false (p : Event -> bool) t e :
  p e = false -> filter p (t ++ [e]) = filter p t.
Proof.
  intros H. rewrite filter_app. simpl. rewrite H. apply app_nil_r.
Qed.

Lemma filter_snoc_true (p : Event -> bool) t e :
  p e = true -> filter p (t ++ [e]) = filter p t ++ [e].
Proof. intros H. rewrite filter_app. simpl. rewrite H. reflexivity. Qed.

Lemma frame_emit p e : p e = false -> respects (frame p) (emit e).
Proof.
  intros H w. split; simpl; [reflexivity | apply filter_snoc_false, H].
Qed.

Lemma frame_runtime_call p c :
  p (EvRuntime c) = false -> respects (frame p) (runtime_call c).
Proof.
  intros H w. unfold runtime_call.
  destruct (rt_call c (runtime w)) as [[st out] r'].
  split; simpl; [reflexivity | apply filter_snoc_false, H].
Qed.

Lemma frame_check_status p st : respects (frame p) (check_status st).
Proof.
  unfold check_status. destruct (st =? cudaSuccess); intros w; apply frame_refl.
Qed.

Lemma frame_warning_state p : respects (frame p) warning_state.
Proof.
  intros w. unfold warning_state.
  destruct (warning_state_static w); split; reflexivity.
Qed.

Lemma frame_warning_state_assign p s :
  respects (frame p) (warning_state_assign s).
Proof. intros w. split; reflexivity. Qed.

Lemma frame_ret p {A} (a : A) : respects (frame p) (ret a).
Proof. apply respects_ret, frame_refl. Qed.

Lemma frame_raise p {A} (e : Exception) : respects (frame p) (@raise _ A e).
Proof. apply respects_raise, frame_refl. Qed.

Lemma frame_bind p {A B} (m : M A) (k : A -> M B) :
  respects (frame p) m -> (forall a, respects (frame p) (k a)) ->
  respects (frame p) (bind m k).
Proof. apply respects_bind, frame_trans. Qed.

Lemma frame_try_catch p {A} (m : M A) (h : Exception -> M A) :
  respects (frame p) m -> (forall e, respects (frame p) (h e)) ->
  respects (frame p) (try_catch m h).
Proof. apply respects_try_catch, frame_trans. Qed.

Create HintDb frames.

#[local] Hint Resolve frame_ret frame_raise frame_emit frame_runtime_call
  frame_check_status frame_warning_state frame_warning_state_assign : frames.

(** Discharges [respects (frame p) m] for straight-line wrapper code. *)
Ltac frame_steps :=
  repeat first
    [ apply frame_bind; [ | intros ? ]
    | apply respects_if
    | solve [auto with frames] ].

Lemma frame_C10_CUDA_CHECK p c :
  p (EvRuntime c) = false ->
  respects (frame p) (C10_CUDA_CHECK (runtime_call c)).
Proof. intros H. unfold C10_CUDA_CHECK. frame_steps. Qed.

(** *** Running the primitives *)

Lemma runtime_call_run c w :
  runtime_call c w =
  (Returned (rt_status c (runtime w), snd (fst (rt_call c (runtime w)))),
   {| warning_state_static := warning_state_static w;
      device_count_static := device_count_static w;
      runtime := rt_next c (runtime w);
      trace := trace w ++ [EvRuntime c] |}).
Proof.
  unfold runtime_call, rt_status, rt_next.
  destruct (rt_call c (runtime w)) as [[st out] r']. reflexivity.
Qed.

Lemma C10_CUDA_CHECK_run c w :
  C10_CUDA_CHECK (runtime_call c) w =
  check_status (rt_status c (runtime w))
    {| warning_state_static := warning_state_static w;
       device_count_static := device_count_static w;
       runtime := rt_next c (runtime w);
       trace := trace w ++ [EvRuntime c] |}.
Proof.
  unfold C10_CUDA_CHECK, bind. rewrite runtime_call_run. reflexivity.
Qed.



Lemma warning_state_run w :
  exists w1,
    warning_state w = (Returned (mkWarningState (current_level w)), w1) /\
    warning_state_static w1 = Some (mkWarningState (current_level w)) /\
    device_count_static w1 = device_count_static w /\
    runtime w1 = runtime w /\
    trace w1 = trace w.
Proof.
  unfold warning_state, current_level.
  destruct (warning_state_static w) as [[l] | ] eqn:E; simpl.
  - exists w. rewrite E. repeat split; reflexivity.
  - eexists. repeat split; reflexivity.
Qed.

Lemma runtime_calls_app t1 t2 :
  runtime_calls (t1 ++ t2) = runtime_calls t1 ++ runtime_calls t2.
Proof.
  induction t1 as [ | [c | | msg] t1 IH]; simpl; congruence.
Qed.

(** *** The warning state *)

(** C10: a [WarningState] holds exactly one level, which starts as
    [L_DISABLED], both for the class and for the singleton of a process
    that has just started; a read after [set_sync_warning_level l] gives
    [l], for every level [l]; and the write changes neither the cached
    device count, nor the runtime, nor the trace. *)
Theorem WarningState_accessors_roundtrip :
  get_sync_warning_level WarningState_new = L_DISABLED /\
  (forall s : WarningState,
     s = {| sync_warning_level := get_sync_warning_level s |}) /\
  (forall l s, get_sync_warning_level (set_sync_warning_level l s) = l) /\
  (forall r,
     fst (call_get_sync_warning_level (fresh_process r))
     = Returned L_DISABLED) /\
  (forall l w,
     exists w1,
       call_set_sync_warning_level l w = (Returned tt, w1) /\
       call_get_sync_warning_level w1 = (Returned l, w1) /\
       device_count_static w1 = device_count_static w /\
       runtime w1 = runtime w /\
       trace w1 = trace w).
Proof.
  split; [reflexivity | ].
  split; [intros [l]; reflexivity | ].
  split; [reflexivity | ].
  split; [reflexivity | ].
  intros l w.
  unfold call_set_sync_warning_level, call_get_sync_warning_level, bind.
  destruct (warning_state_run w) as (w0 & Hrun & _ & Hc & Hr & Ht).
  rewrite Hrun. unfold warning_state_assign.
  eexists. split; [reflexivity | ].
  unfold warning_state; simpl. repeat split; assumption.
Qed.

(** *** The error translator *)


(** *** Device-wide synchronization *)

Lemma WarningState_run_set l w :
  let w1 := snd (call_set_sync_warning_level l w) in
  current_level w1 = l /\ runtime w1 = runtime w /\ trace w1 = trace w.
Proof.
  unfold call_set_sync_warning_level, bind.
  destruct (warning_state_run w) as (w0 & Hrun & _ & _ & Hr & Ht).
  rewrite Hrun. simpl. auto.
Qed.

(** C9: [device_synchronize] makes the runtime's device-wide synchronize
    call and nothing else: the warning state is neither read nor created,
    the escalation hook is not entered, and the outcome is the translated
    status of that one call.  This holds in every world, so for every
    warning level; in particular the outcome is the same after the level
    has been set to any value, [L_ERROR] included. *)
Theorem device_synchronize_bypasses_warning_state :
  (forall w,
     device_synchronize w =
     ((if rt_status cudaDeviceSynchronize (runtime w) =? cudaSuccess
       then Returned tt
       else Raised (RuntimeError
                      (rt_status cudaDeviceSynchronize (runtime w))
                      (cudaGetErrorString
                         (rt_status cudaDeviceSynchronize (runtime w))))),
      {| warning_state_static := warning_state_static w;
         device_count_static := device_count_static w;
         runtime := rt_next cudaDeviceSynchronize (runtime w);
         trace := trace w ++ [EvRuntime cudaDeviceSynchronize] |})) /\
  (forall w,
     count_events is_escalation (trace (snd (device_synchronize w)))
     = count_events is_escalation (trace w)) /\
  (forall l w,
     let w1 := snd (call_set_sync_warning_level l w) in
     current_level w1 = l /\
     fst (device_synchronize w1) = fst (device_synchronize w) /\
     runtime_calls (trace (snd (device_synchronize w1)))
     = runtime_calls (trace w) ++ [cudaDeviceSynchronize]).
Proof.
  assert (Hrun : forall w,
     device_synchronize w =
     ((if rt_status cudaDeviceSynchronize (runtime w) =? cudaSuccess
       then Returned tt
       else Raised (RuntimeError
                      (rt_status cudaDeviceSynchronize (runtime w))
                      (cudaGetErrorString
                         (rt_status cudaDeviceSynchronize (runtime w))))),
      {| warning_state_static := warning_state_static w;
         device_count_static := device_count_static w;
         runtime := rt_next cudaDeviceSynchronize (runtime w);
         trace := trace w ++ [EvRuntime cudaDeviceSynchronize] |})).
  { intros w. unfold device_synchronize. rewrite C10_CUDA_CHECK_run.
    unfold check_status.
    destruct (rt_status cudaDeviceSynchronize (runtime w) =? cudaSuccess);
      reflexivity. }
  split; [exact Hrun | ].
  split.
  - intros w. rewrite Hrun. simpl. unfold count_events.
    rewrite filter_snoc_false; reflexivity.
  - intros l w w1.
    destruct (WarningState_run_set l w) as (Hl & Hr & Ht).
    fold w1 in Hl, Hr, Ht.
    split; [exact Hl | ].
    rewrite !Hrun; simpl. rewrite Hr, Ht.
    split; [reflexivity | ].
    rewrite runtime_calls_app. reflexivity.
Qed.

(** *** The device count *)

(** What one call of [device_count] does, by the state of the cache. *)
Lemma device_count_run w :
  match device_count_static w with
  | Some n => device_count w = (Returned n, w)
  | None =>
      exists n w',
        device_count w = (Returned n, w') /\
        device_count_static w' = Some n /\
        filter is_enumeration (trace w')
        = filter is_enumeration (trace w) ++ [EvRuntime cudaGetDeviceCount] /\
        (rt_status cudaGetDeviceCount (runtime w) <> cudaSuccess -> n = 0)
  end.
Proof.
  unfold device_count.
  destruct (device_count_static w) as [n | ] eqn:E; [reflexivity | ].
  unfold bind at 1. unfold try_catch, query_device_count.
  unfold bind at 1. rewrite runtime_call_run.
  unfold bind at 1. unfold check_status. cbn [fst snd].
  destruct (Z.eqb_spec (rt_status cudaGetDeviceCount (runtime w)) cudaSuccess)
    as [Hs | Hs].
  - eexists. eexists. split; [reflexivity | ].
    cbn. split; [reflexivity | ]. split; [ | congruence].
    apply filter_snoc_true. reflexivity.
  - eexists. eexists. split; [reflexivity | ].
    cbn. split; [reflexivity | ]. split; [ | reflexivity].
    rewrite filter_snoc_false by reflexivity.
    apply filter_snoc_true. reflexivity.
Qed.

(** C1: [device_count] returns normally in every world, so whatever the
    enumeration query does: it never ends with an exception.  The value it
    returns is then the cached one, and when the cache was empty and the
    query fails that value is 0. *)
Theorem device_count_never_raises :
  forall w,
  exists n,
    fst (device_count w) = Returned n /\
    device_count_static (snd (device_count w)) = Some n /\
    (device_count_static w = None ->
     rt_status cudaGetDeviceCount (runtime w) <> cudaSuccess ->
     n = 0).
Proof.
  intros w. pose proof (device_count_run w) as H.
  destruct (device_count_static w) as [n | ] eqn:E.
  - exists n. rewrite H. simpl. repeat split; [exact E | discriminate].
  - destruct H as (n & w' & Hrun & Hc & _ & H0).
    exists n. rewrite Hrun. simpl. auto.
Qed.

(** C4: with [n] the value [device_count] returns,
    [device_count_ensure_non_zero] raises [NoDevicesError] exactly when
    [n = 0] and returns [n] itself otherwise, so whenever [n] is positive;
    it leaves the world as [device_count] does; and [NoDevicesError] is not
    a [RuntimeError]. *)
Theorem device_count_ensure_non_zero_spec :
  forall w,
  exists n,
    fst (device_count w) = Returned n /\
    snd (device_count_ensure_non_zero w) = snd (device_count w) /\
    (fst (device_count_ensure_non_zero w) = Raised NoDevicesError <-> n = 0) /\
    (0 < n -> fst (device_count_ensure_non_zero w) = Returned n) /\
    (forall code description,
       NoDevicesError <> RuntimeError code description).
Proof.
  intros w. unfold device_count_ensure_non_zero, bind.
  pose proof (device_count_run w) as H.
  assert (Hn : exists n w', device_count w = (Returned n, w')).
  { destruct (device_count_static w) as [n | ].
    - eauto.
    - destruct H as (n & w' & Hrun & _). eauto. }
  destruct Hn as (n & w' & Hrun). exists n. rewrite Hrun. cbn [fst snd].
  split; [reflexivity | ].
  destruct (Z.eqb_spec n 0) as [Hz | Hz]; cbn.
  - repeat split; try discriminate; try tauto. lia.
  - repeat split; try discriminate; try tauto; congruence.
Qed.

(** *** Memoization *)

Lemma frame_warn_or_error_on_sync p :
  p EvEscalation = false ->
  (forall msg, p (EvDiagnostic msg) = false) ->
  respects (frame p) warn_or_error_on_sync.
Proof.
  intros He Hd. unfold warn_or_error_on_sync.
  apply frame_bind; [auto with frames | intros _].
  apply frame_bind; [auto with frames | intros s].
  destruct (get_sync_warning_level s); auto with frames.
Qed.

Lemma frame_stream_synchronize stream :
  respects (frame is_enumeration) (stream_synchronize stream).
Proof.
  unfold stream_synchronize.
  apply frame_bind; [auto with frames | intros s].
  apply frame_bind; [ | intros _; apply frame_C10_CUDA_CHECK; reflexivity].
  apply respects_if; [ | auto with frames].
  apply frame_warn_or_error_on_sync; reflexivity.
Qed.

Lemma frame_memcpy_and_sync dst src nbytes kind stream :
  respects (frame is_enumeration) (memcpy_and_sync dst src nbytes kind stream).
Proof.
  unfold memcpy_and_sync.
  apply frame_bind; [auto with frames | intros s].
  apply frame_bind.
  - apply respects_if; [ | auto with frames].
    apply frame_warn_or_error_on_sync; reflexivity.
  - intros _. apply respects_if.
    + apply frame_C10_CUDA_CHECK; reflexivity.
    + apply frame_bind; [ | intros _ ]; apply frame_C10_CUDA_CHECK; reflexivity.
Qed.

(** The calls other than the two device-count operations neither touch the
    cache nor query the device count. *)
Lemma frame_exec c :
  c <> api_device_count -> c <> api_device_count_ensure_non_zero ->
  respects (frame is_enumeration) (exec c).
Proof.
  intros H1 H2. destruct c; try contradiction; cbn [exec].
  - unfold current_device. frame_steps.
  - unfold set_device. apply frame_bind; [ | auto with frames].
    apply frame_C10_CUDA_CHECK; reflexivity.
  - unfold device_synchronize. apply frame_bind; [ | auto with frames].
    apply frame_C10_CUDA_CHECK; reflexivity.
  - unfold call_get_sync_warning_level. frame_steps.
  - unfold call_set_sync_warning_level. frame_steps.
  - apply frame_bind; [apply frame_memcpy_and_sync | auto with frames].
  - apply frame_bind; [apply frame_stream_synchronize | auto with frames].
Qed.

Lemma frame_cache_inv w w' :
  frame is_enumeration w w' -> cache_inv w -> cache_inv w'.
Proof.
  unfold frame, cache_inv, count_events. intros [Hc Ht].
  rewrite Hc, Ht. auto.
Qed.

Lemma device_count_cache_inv w :
  cache_inv w -> cache_inv (snd (device_count w)).
Proof.
  intros Hinv. pose proof (device_count_run w) as H.
  unfold cache_inv in *.
  destruct (device_count_static w) as [n | ] eqn:E.
  - rewrite H. simpl. rewrite E. exact Hinv.
  - destruct H as (n & w' & Hrun & Hc & Ht & _).
    rewrite Hrun. simpl. rewrite Hc. unfold count_events in *.
    rewrite Ht, length_app, Hinv. simpl. lia.
Qed.

Lemma device_count_keeps_cache w v :
  device_count_static w = Some v -> device_count w = (Returned v, w).
Proof.
  intros E. pose proof (device_count_run w) as H. rewrite E in H. exact H.
Qed.

(** One call of any exposed operation: the invariant is kept, a filled
    cache keeps its value, and a [device_count] call returns the value the
    cache holds afterwards. *)
Lemma exec_cache c w :
  cache_inv w ->
  cache_inv (snd (exec c w)) /\
  (forall v, device_count_static w = Some v ->
             device_count_static (snd (exec c w)) = Some v) /\
  (c = api_device_count ->
   exists v, fst (exec c w) = Returned (VIndex v) /\
             device_count_static (snd (exec c w)) = Some v).
Proof.
  intros Hinv.
  assert (Hdc : forall w0 : World,
            exists n, device_count w0 = (Returned n, snd (device_count w0)) /\
                      device_count_static (snd (device_count w0)) = Some n).
  { intros w0. pose proof (device_count_run w0) as H.
    destruct (device_count_static w0) as [n | ] eqn:E.
    - exists n. rewrite H. simpl. auto.
    - destruct H as (n & w' & Hrun & Hc & _). exists n.
      rewrite Hrun. simpl. auto. }
  assert (Hother : forall c0,
            c0 <> api_device_count ->
            c0 <> api_device_count_ensure_non_zero ->
            cache_inv (snd (exec c0 w)) /\
            (forall v, device_count_static w = Some v ->
                       device_count_static (snd (exec c0 w)) = Some v) /\
            (c0 = api_device_count ->
             exists v, fst (exec c0 w) = Returned (VIndex v) /\
                       device_count_static (snd (exec c0 w)) = Some v)).
  { intros c0 H1 H2. pose proof (frame_exec c0 H1 H2 w) as Hf.
    split; [eapply frame_cache_inv; eauto | ].
    split; [intros v Hv; destruct Hf as [Hc _]; congruence | contradiction]. }
  destruct c; try (apply Hother; discriminate).
  - (* device_count *)
    cbn [exec]. unfold bind.
    destruct (Hdc w) as (n & Hrun & Hc).
    pose proof (device_count_cache_inv w Hinv) as Hinv'.
    rewrite Hrun. cbn [fst snd ret].
    split; [exact Hinv' | ].
    split; [ | intros _; exists n; auto].
    intros v Hv. rewrite (device_count_keeps_cache w v Hv). exact Hv.
  - (* device_count_ensure_non_zero *)
    cbn [exec]. unfold device_count_ensure_non_zero, bind.
    destruct (Hdc w) as (n & Hrun & Hc).
    pose proof (device_count_cache_inv w Hinv) as Hinv'.
    rewrite Hrun.
    assert (Hw : forall v, device_count_static w = Some v ->
                           device_count_static (snd (device_count w)) = Some v).
    { intros v Hv. rewrite (device_count_keeps_cache w v Hv). exact Hv. }
    destruct (n =? 0); cbn; (split; [exact Hinv' | ]);
      (split; [exact Hw | discriminate]).
Qed.

Lemma run_cache calls :
  forall w,
    cache_inv w ->
    cache_inv (snd (run calls w)) /\
    (forall v, device_count_static w = Some v ->
               all_return v (device_count_results (fst (run calls w)))) /\
    (exists v, all_return v (device_count_results (fst (run calls w)))).
Proof.
  induction calls as [ | c rest IH]; intros w Hinv.
  - simpl. split; [exact Hinv | ].
    split; [intros v _; apply Forall_nil | exists 0; apply Forall_nil].
  - cbn [run].
    destruct (exec_cache c w Hinv) as (Hinv1 & Hkeep & Hdc).
    destruct (exec c w) as [r w1] eqn:Ec. cbn [fst snd] in *.
    destruct (IH w1 Hinv1) as (Hinv2 & Hsome & Hex).
    destruct (run rest w1) as [log w2] eqn:Er. cbn [fst snd] in *.
    split; [exact Hinv2 | ].
    assert (Hcase : forall v,
              device_count_static w1 = Some v ->
              (c = api_device_count -> r = Returned (VIndex v)) ->
              all_return v (device_count_results ((c, r) :: log))).
    { intros v Hv Hr. specialize (Hsome v Hv).
      destruct c; cbn [device_count_results]; try exact Hsome.
      apply Forall_cons; [apply Hr; reflexivity | exact Hsome]. }
    split.
    + intros v Hv. apply Hcase; [apply Hkeep, Hv | ].
      intros Hc. destruct (Hdc Hc) as (v' & Hr & Hv').
      rewrite (Hkeep v Hv) in Hv'. congruence.
    + destruct (device_count_static w1) as [v1 | ] eqn:E1.
      * exists v1. apply Hcase; [reflexivity | ].
        intros Hc. destruct (Hdc Hc) as (v' & Hr & Hv'). congruence.
      * destruct Hex as (v & Hv). exists v.
        destruct c; cbn [device_count_results]; try exact Hv.
        destruct (Hdc eq_refl) as (v' & _ & Hv'). discriminate.
Qed.

Lemma call_n_times_cached N :
  forall w v,
    device_count_static w = Some v ->
    call_n_times N device_count w = (repeat (Returned v) N, w).
Proof.
  induction N as [ | N IH]; intros w v Hv; [reflexivity | ].
  cbn [call_n_times repeat].
  rewrite (device_count_keeps_cache w v Hv), (IH w v Hv). reflexivity.
Qed.

(** C3: [device_count] is memoized.  From any world, [N] calls in a row
    all return one and the same value and add at most one enumeration
    query to the trace.  Over a whole process, that is any sequence of
    calls on the exposed operations from a fresh start, the enumeration
    query runs at most once and all [device_count] calls return the same
    value, whatever the runtime answers in between. *)
Theorem device_count_memoized :
  (forall N w,
     exists v,
       fst (call_n_times N device_count w) = repeat (Returned v) N /\
       (count_events is_enumeration
          (trace (snd (call_n_times N device_count w)))
        <= count_events is_enumeration (trace w) + 1)%nat) /\
  (forall r calls,
     (count_events is_enumeration
        (trace (snd (run calls (fresh_process r)))) <= 1)%nat /\
     exists v,
       all_return v (device_count_results (fst (run calls (fresh_process r))))).
Proof.
  split.
  - intros N w. destruct (device_count_static w) as [v | ] eqn:E.
    + exists v. rewrite (call_n_times_cached N w v E). simpl. split; [reflexivity | lia].
    + destruct N as [ | N].
      * exists 0. simpl. split; [reflexivity | lia].
      * pose proof (device_count_run w) as H. rewrite E in H.
        destruct H as (n & w' & Hrun & Hc & Ht & _).
        exists n. cbn [call_n_times repeat].
        rewrite Hrun, (call_n_times_cached N w' n Hc). simpl.
        split; [reflexivity | ].
        unfold count_events. rewrite Ht, length_app. simpl. lia.
  - intros r calls.
    assert (Hinv : cache_inv (fresh_process r)) by reflexivity.
    destruct (run_cache calls (fresh_process r) Hinv) as (Hinv' & _ & Hex).
    split; [ | exact Hex].
    unfold cache_inv in Hinv'.
    destruct (device_count_static (snd (run calls (fresh_process r))));
      lia.
Qed.

(** *** The synchronization wrappers *)

Lemma checked_call_run c w :
  C10_CUDA_CHECK (runtime_call c) w
  = (status_result (rt_status c (runtime w)), after_call c w).
Proof.
  rewrite C10_CUDA_CHECK_run. unfold check_status, status_result, after_call.
  destruct (rt_status c (runtime w) =? cudaSuccess); reflexivity.
Qed.

(** Phase 1 of both wrappers, in front of any continuation [k]: the level
    is read; Disabled goes straight on, Warn goes on after the hook has run
    and logged its diagnostic, Error raises out of the hook. *)
Lemma sync_policy_run {A} (k : M A) w :
  (s <- warning_state ;;
   (if SyncWarningLevel_neb (get_sync_warning_level s) L_DISABLED
    then warn_or_error_on_sync
    else ret tt) ;;
   k) w
  = match current_level w with
    | L_DISABLED => k (after_policy_check [] w)
    | L_WARN =>
        k (after_policy_check
             [EvEscalation;
              EvDiagnostic "called a synchronizing CUDA operation"] w)
    | L_ERROR =>
        (Raised SyncEscalationError, after_policy_check [EvEscalation] w)
    end.
Proof.
  destruct w as [ws c r t]. unfold bind, warning_state, current_level.
  destruct ws as [[l] | ]; [destruct l | ]; cbn;
    unfold after_policy_check, current_level; cbn;
    rewrite <- ?app_assoc, ?app_nil_r; reflexivity.
Qed.

Lemma stream_synchronize_run stream w :
  stream_synchronize stream w
  = match current_level w with
    | L_DISABLED =>
        C10_CUDA_CHECK (runtime_call (cudaStreamSynchronize stream))
          (after_policy_check [] w)
    | L_WARN =>
        C10_CUDA_CHECK (runtime_call (cudaStreamSynchronize stream))
          (after_policy_check
             [EvEscalation;
              EvDiagnostic "called a synchronizing CUDA operation"] w)
    | L_ERROR =>
        (Raised SyncEscalationError, after_policy_check [EvEscalation] w)
    end.
Proof. unfold stream_synchronize. apply sync_policy_run. Qed.

(** Phase 2 of [memcpy_and_sync]: lines 77-82 of the header. *)
Lemma memcpy_phase_run dst src n kind stream w :
  (if hip_has_memcpy_with_stream then
     C10_CUDA_CHECK (runtime_call (hipMemcpyWithStream dst src n kind stream))
   else
     C10_CUDA_CHECK (runtime_call (cudaMemcpyAsync dst src n kind stream)) ;;
     C10_CUDA_CHECK (runtime_call (cudaStreamSynchronize stream))) w
  = if hip_has_memcpy_with_stream then
      (status_result
         (rt_status (hipMemcpyWithStream dst src n kind stream) (runtime w)),
       after_call (hipMemcpyWithStream dst src n kind stream) w)
    else if rt_status (cudaMemcpyAsync dst src n kind stream) (runtime w)
            =? cudaSuccess
    then
      (status_result
         (rt_status (cudaStreamSynchronize stream)
            (rt_next (cudaMemcpyAsync dst src n kind stream) (runtime w))),
       after_call (cudaStreamSynchronize stream)
         (after_call (cudaMemcpyAsync dst src n kind stream) w))
    else
      (Raised
         (RuntimeError
            (rt_status (cudaMemcpyAsync dst src n kind stream) (runtime w))
            (cudaGetErrorString
               (rt_status (cudaMemcpyAsync dst src n kind stream)
                  (runtime w)))),
       after_call (cudaMemcpyAsync dst src n kind stream) w).
Proof.
  destruct hip_has_memcpy_with_stream; [apply checked_call_run | ].
  unfold bind. rewrite checked_call_run. unfold status_result at 1.
  destruct (rt_status (cudaMemcpyAsync dst src n kind stream) (runtime w)
            =? cudaSuccess); [ | reflexivity].
  rewrite checked_call_run. reflexivity.
Qed.

Lemma escalations_after_call c w :
  filter is_escalation (trace (after_call c w))
  = filter is_escalation (trace w).
Proof. apply filter_snoc_false. reflexivity. Qed.

Lemma size_t_of_int64_nonneg n :
  0 <= n <= INT64_MAX -> size_t_of_int64 n = n.
Proof.
  unfold size_t_of_int64, INT64_MAX. intros H.
  apply Z.mod_small. lia.
Qed.

Lemma disabled_call_quiet w :
  current_level w = L_DISABLED ->
  (forall dst src nbytes kind stream,
     let w' := snd (memcpy_and_sync dst src nbytes kind stream w) in
     count_events is_escalation (trace w')
     = count_events is_escalation (trace w) /\
     current_level w' = L_DISABLED) /\
  (forall stream,
     let w' := snd (stream_synchronize stream w) in
     count_events is_escalation (trace w')
     = count_events is_escalation (trace w) /\
     current_level w' = L_DISABLED).
Proof.
  intros Hl.
  assert (H0 : filter is_escalation (trace (after_policy_check [] w))
               = filter is_escalation (trace w)).
  { simpl. rewrite app_nil_r. reflexivity. }
  assert (Hl0 : current_level (after_policy_check [] w) = L_DISABLED).
  { unfold current_level at 1. simpl. exact Hl. }
  split.
  - intros dst src nbytes kind stream w'. subst w'.
    unfold memcpy_and_sync. rewrite sync_policy_run, Hl.
    rewrite memcpy_phase_run. unfold count_events.
    destruct hip_has_memcpy_with_stream;
      [ | destruct (_ =? cudaSuccess) ]; cbn [snd];
      rewrite ?escalations_after_call, H0; (split; [reflexivity | exact Hl0]).
  - intros stream w'. subst w'.
    rewrite stream_synchronize_run, Hl, checked_call_run. cbn [snd].
    unfold count_events. rewrite escalations_after_call, H0.
    split; [reflexivity | exact Hl0].
Qed.

Lemma snd_bind_ret {A B} (m : M A) (b : B) w :
  snd ((m ;; ret b) w) = snd (m w).
Proof. unfold bind, ret. destruct (m w) as [[a | e] w1]; reflexivity. Qed.

Lemma disabled_run_quiet calls :
  forall w,
    current_level w = L_DISABLED ->
    forallb is_sync_call calls = true ->
    count_events is_escalation (trace (snd (run calls w)))
    = count_events is_escalation (trace w).
Proof.
  induction calls as [ | c rest IH]; intros w Hl Hsync; [reflexivity | ].
  cbn [forallb] in Hsync. apply andb_true_iff in Hsync.
  destruct Hsync as [Hc Hrest].
  destruct (disabled_call_quiet w Hl) as [Hm Hs].
  assert (Hstep : count_events is_escalation (trace (snd (exec c w)))
                  = count_events is_escalation (trace w) /\
                  current_level (snd (exec c w)) = L_DISABLED).
  { destruct c; try discriminate; cbn [exec]; rewrite snd_bind_ret.
    - apply Hm.
    - apply Hs. }
  destruct Hstep as [Hcount Hl1].
  cbn [run]. destruct (exec c w) as [r w1]. cbn [snd] in Hcount, Hl1.
  specialize (IH w1 Hl1 Hrest).
  destruct (run rest w1) as [log w2]. cbn [snd] in *. congruence.
Qed.

(** C5: under level [L_DISABLED] a call of [memcpy_and_sync] or of
    [stream_synchronize] never enters the escalation hook: the number of
    hook entries in the trace is the same after the call as before, and the
    level is still [L_DISABLED] afterwards.  So over any sequence of calls
    on the two wrappers the count stays what it was. *)
Theorem disabled_level_never_escalates :
  forall w,
    current_level w = L_DISABLED ->
    (forall dst src nbytes kind stream,
       let w' := snd (memcpy_and_sync dst src nbytes kind stream w) in
       count_events is_escalation (trace w')
       = count_events is_escalation (trace w) /\
       current_level w' = L_DISABLED) /\
    (forall stream,
       let w' := snd (stream_synchronize stream w) in
       count_events is_escalation (trace w')
       = count_events is_escalation (trace w) /\
       current_level w' = L_DISABLED) /\
    (forall calls,
       forallb is_sync_call calls = true ->
       count_events is_escalation (trace (snd (run calls w)))
       = count_events is_escalation (trace w)).
Proof.
  intros w Hl. destruct (disabled_call_quiet w Hl) as [Hm Hs].
  split; [exact Hm | ]. split; [exact Hs | ].
  intros calls Hsync. apply disabled_run_quiet; assumption.
Qed.

(** C2: under level [L_ERROR] each of [memcpy_and_sync] and
    [stream_synchronize] ends with the exception the escalation hook
    raises, the hook having been entered once, and no call into the runtime
    has been made: the trace has gained the hook entry only, so the number
    of runtime calls in it and the calls themselves are as before, and the
    runtime is in the state it was in. *)
Theorem error_level_raises_before_runtime_call :
  forall w,
    current_level w = L_ERROR ->
    (forall dst src nbytes kind stream,
       let out := memcpy_and_sync dst src nbytes kind stream w in
       fst out = Raised SyncEscalationError /\
       trace (snd out) = trace w ++ [EvEscalation] /\
       count_events is_runtime_call (trace (snd out))
       = count_events is_runtime_call (trace w) /\
       runtime_calls (trace (snd out)) = runtime_calls (trace w) /\
       runtime (snd out) = runtime w) /\
    (forall stream,
       let out := stream_synchronize stream w in
       fst out = Raised SyncEscalationError /\
       trace (snd out) = trace w ++ [EvEscalation] /\
       count_events is_runtime_call (trace (snd out))
       = count_events is_runtime_call (trace w) /\
       runtime_calls (trace (snd out)) = runtime_calls (trace w) /\
       runtime (snd out) = runtime w).
Proof.
  intros w Hl.
  assert (Hc : runtime_calls (trace w ++ [EvEscalation])
               = runtime_calls (trace w)).
  { rewrite runtime_calls_app. simpl. apply app_nil_r. }
  assert (Hn : count_events is_runtime_call (trace w ++ [EvEscalation])
               = count_events is_runtime_call (trace w)).
  { unfold count_events. rewrite filter_snoc_false; reflexivity. }
  split.
  - intros dst src nbytes kind stream out. subst out.
    unfold memcpy_and_sync. rewrite sync_policy_run, Hl. cbn [fst snd].
    repeat split; try reflexivity; [exact Hn | exact Hc].
  - intros stream out. subst out.
    rewrite stream_synchronize_run, Hl. cbn [fst snd].
    repeat split; try reflexivity; [exact Hn | exact Hc].
Qed.

Lemma status_result_success status :
  status = cudaSuccess -> status_result status = Returned tt.
Proof. intros ->. reflexivity. Qed.

(** C6: under level [L_WARN] the escalation hook is entered, logs a
    diagnostic and returns, and the runtime call is made after it.
    [stream_synchronize] then ends as the status of its synchronize call
    says, so it returns normally when that call succeeds; likewise
    [memcpy_and_sync] makes its copy call or calls after the hook and
    returns normally when the runtime answers them with success. *)
Theorem warn_level_hook_fires_and_call_completes :
  forall w,
    current_level w = L_WARN ->
    (forall stream,
       let c := cudaStreamSynchronize stream in
       let out := stream_synchronize stream w in
       (exists msg,
          trace (snd out)
          = trace w ++ [EvEscalation; EvDiagnostic msg; EvRuntime c]) /\
       runtime (snd out) = rt_next c (runtime w) /\
       fst out = status_result (rt_status c (runtime w)) /\
       (rt_status c (runtime w) = cudaSuccess -> fst out = Returned tt)) /\
    (forall dst src nbytes kind stream,
       let calls :=
         if hip_has_memcpy_with_stream
         then [hipMemcpyWithStream dst src (size_t_of_int64 nbytes) kind stream]
         else [cudaMemcpyAsync dst src (size_t_of_int64 nbytes) kind stream;
               cudaStreamSynchronize stream] in
       let out := memcpy_and_sync dst src nbytes kind stream w in
       runtime_accepts calls (runtime w) = true ->
       fst out = Returned tt /\
       exists msg,
         trace (snd out)
         = trace w ++ [EvEscalation; EvDiagnostic msg] ++ map EvRuntime calls).
Proof.
  intros w Hl. split.
  - intros stream c out. subst c out.
    rewrite stream_synchronize_run, Hl, checked_call_run. cbn [fst snd].
    split; [eexists; cbn; rewrite <- app_assoc; reflexivity | ].
    split; [reflexivity | ].
    split; [reflexivity | apply status_result_success].
  - intros dst src nbytes kind stream calls out. subst calls out.
    unfold memcpy_and_sync. rewrite sync_policy_run, Hl, memcpy_phase_run.
    destruct hip_has_memcpy_with_stream; cbn [runtime_accepts].
    + rewrite andb_true_r. intros Hs. apply Z.eqb_eq in Hs.
      cbn [fst snd runtime after_policy_check]. rewrite Hs.
      split; [reflexivity | ].
      eexists. cbn. rewrite <- app_assoc. reflexivity.
    + rewrite andb_true_r. intros Hs. apply andb_true_iff in Hs.
      destruct Hs as [H1 H2]. apply Z.eqb_eq in H2.
      cbn [fst snd runtime after_policy_check]. rewrite H1.
      cbn [fst snd runtime after_policy_check after_call]. rewrite H2.
      split; [reflexivity | ].
      eexists. cbn. rewrite <- !app_assoc. reflexivity.
Qed.

Lemma runtime_calls_after_call c w :
  runtime_calls (trace (after_call c w)) = runtime_calls (trace w) ++ [c].
Proof. simpl. apply runtime_calls_app. Qed.

(** The runtime calls of [memcpy_and_sync] past the policy check, by the
    value of the preprocessor condition of line 77. *)
Lemma memcpy_and_sync_calls_by_guard :
  forall w dst src nbytes kind stream,
    current_level w <> L_ERROR ->
    0 <= nbytes <= INT64_MAX ->
    let out := memcpy_and_sync dst src nbytes kind stream w in
    let r0 := runtime w in
    if hip_has_memcpy_with_stream then
      let c := hipMemcpyWithStream dst src nbytes kind stream in
      runtime_calls (trace (snd out)) = runtime_calls (trace w) ++ [c] /\
      fst out = status_result (rt_status c r0) /\
      runtime (snd out) = rt_next c r0
    else
      let c1 := cudaMemcpyAsync dst src nbytes kind stream in
      let c2 := cudaStreamSynchronize stream in
      if rt_status c1 r0 =? cudaSuccess then
        runtime_calls (trace (snd out)) = runtime_calls (trace w) ++ [c1; c2] /\
        fst out = status_result (rt_status c2 (rt_next c1 r0)) /\
        runtime (snd out) = rt_next c2 (rt_next c1 r0)
      else
        runtime_calls (trace (snd out)) = runtime_calls (trace w) ++ [c1] /\
        fst out = Raised (RuntimeError (rt_status c1 r0)
                            (cudaGetErrorString (rt_status c1 r0))) /\
        runtime (snd out) = rt_next c1 r0.
Proof.
  intros w dst src nbytes kind stream Hl Hn out r0. subst out r0.
  unfold memcpy_and_sync.
  rewrite sync_policy_run, (size_t_of_int64_nonneg nbytes Hn).
  assert (Hd : runtime_calls (trace w ++ []) = runtime_calls (trace w)).
  { rewrite app_nil_r. reflexivity. }
  assert (Hw : forall msg,
            runtime_calls (trace w ++ [EvEscalation; EvDiagnostic msg])
            = runtime_calls (trace w)).
  { intros msg. rewrite runtime_calls_app. apply app_nil_r. }
  destruct (current_level w); [ | | contradiction];
    rewrite memcpy_phase_run; cbn [runtime after_policy_check];
    (destruct hip_has_memcpy_with_stream;
     [ | destruct (rt_status (cudaMemcpyAsync dst src nbytes kind stream)
                     (runtime w) =? cudaSuccess) ]);
    cbn [fst snd]; rewrite !runtime_calls_after_call;
    cbn [trace after_policy_check runtime after_call];
    rewrite ?Hd, ?Hw, <- ?app_assoc; repeat split; reflexivity.
Qed.

(** C8: when the policy check lets [memcpy_and_sync] through (the level is
    not [L_ERROR]) and [nbytes] is a byte count (not negative), the calls
    it makes into the runtime are these.  On a build where [HIP_VERSION] is
    defined and at least 301, the one call [hipMemcpyWithStream], and the
    outcome is its translated status.  On every other build, where
    [HIP_VERSION] is undefined or below 301, [cudaMemcpyAsync] of [nbytes]
    bytes and, if it succeeded, [cudaStreamSynchronize] of the given
    stream, the outcome being the translated status of the synchronize; if
    the copy failed, its status is raised as a [RuntimeError] and no
    further call is made. *)
Theorem memcpy_and_sync_runtime_calls :
  forall w dst src nbytes kind stream,
    current_level w <> L_ERROR ->
    0 <= nbytes <= INT64_MAX ->
    let out := memcpy_and_sync dst src nbytes kind stream w in
    let r0 := runtime w in
    (forall v,
       HIP_VERSION = Some v -> 301 <= v ->
       let c := hipMemcpyWithStream dst src nbytes kind stream in
       runtime_calls (trace (snd out)) = runtime_calls (trace w) ++ [c] /\
       fst out = status_result (rt_status c r0) /\
       runtime (snd out) = rt_next c r0) /\
    ((HIP_VERSION = None \/ exists v, HIP_VERSION = Some v /\ v < 301) ->
     let c1 := cudaMemcpyAsync dst src nbytes kind stream in
     let c2 := cudaStreamSynchronize stream in
     if rt_status c1 r0 =? cudaSuccess then
       runtime_calls (trace (snd out)) = runtime_calls (trace w) ++ [c1; c2] /\
       fst out = status_result (rt_status c2 (rt_next c1 r0)) /\
       runtime (snd out) = rt_next c2 (rt_next c1 r0)
     else
       runtime_calls (trace (snd out)) = runtime_calls (trace w) ++ [c1] /\
       fst out = Raised (RuntimeError (rt_status c1 r0)
                           (cudaGetErrorString (rt_status c1 r0))) /\
       runtime (snd out) = rt_next c1 r0).
Proof.
  intros w dst src nbytes kind stream Hl Hn out r0.
  pose proof (memcpy_and_sync_calls_by_guard w dst src nbytes kind stream
                Hl Hn) as H.
  cbn zeta in H. fold out r0 in H.
  unfold hip_has_memcpy_with_stream in H.
  split.
  - intros v Hv Hge c. subst c. rewrite Hv in H.
    destruct (Z.leb_spec 301 v); [exact H | lia].
  - intros Hlow c1 c2. subst c1 c2.
    destruct Hlow as [Hnone | (v & Hv & Hlt)].
    + rewrite Hnone in H. exact H.
    + rewrite Hv in H. destruct (Z.leb_spec 301 v); [lia | exact H].
Qed.

End Properties.

(** ** The properties on the simulated runtime *)

(** The concrete scenario of the specification: two devices, device 0
    active; switching to device 1 is seen by [current_device]; device 5 is
    refused with a [RuntimeError]; and under level Error
    [stream_synchronize] raises with no synchronize call recorded. *)
Example sim_scenario :
  let P := sim_platform None in
  let out :=
    @run P
      [api_current_device; api_set_device 1; api_current_device;
       api_set_device 5; api_set_sync_warning_level L_ERROR;
       api_stream_synchronize 7]
      (sim_world None sim_two_devices) in
  map snd (fst out)
  = [Returned (VIndex 0); Returned VVoid; Returned (VIndex 1);
     Raised (RuntimeError cudaErrorInvalidDevice "invalid device ordinal");
     Returned VVoid; Raised SyncEscalationError] /\
  runtime_calls (trace (snd out))
  = [cudaGetDevice; cudaSetDevice 1; cudaGetDevice; cudaSetDevice 5].
Proof. split; reflexivity. Qed.

(** Without a driver the enumeration query fails and [device_count]
    returns 0. *)
Lemma device_count_never_raises_witness :
  exists n,
    fst (@device_count (sim_platform None) (sim_world None sim_no_driver))
    = Returned n /\ n = 0.
Proof.
  destruct (@device_count_never_raises (sim_platform None)
              (sim_world None sim_no_driver)) as (n & Hret & _ & Hzero).
  exists n. split; [exact Hret | ].
  apply Hzero; [reflexivity | vm_compute; discriminate].
Defined.

(** With two devices [device_count_ensure_non_zero] returns 2. *)
Lemma device_count_ensure_non_zero_spec_witness :
  fst (@device_count_ensure_non_zero (sim_platform None)
         (sim_world None sim_two_devices))
  = Returned 2.
Proof.
  destruct (@device_count_ensure_non_zero_spec (sim_platform None)
              (sim_world None sim_two_devices))
    as (n & Hcount & _ & _ & Hpos & _).
  assert (Hn : n = 2).
  { vm_compute in Hcount. injection Hcount as Hcount. symmetry. exact Hcount. }
  subst n. apply Hpos. lia.
Defined.



Lemma disabled_level_never_escalates_witness :
  let P := sim_platform None in
  let w := sim_world None sim_two_devices in
  current_level w = L_DISABLED /\
  count_events is_escalation
    (trace (snd (run [api_stream_synchronize 7;
                      api_memcpy_and_sync 1 2 16 cudaMemcpyHostToDevice 7]
                   w))) = O.
Proof.
  intros P w.
  assert (Hl : current_level w = L_DISABLED) by reflexivity.
  split; [exact Hl | ].
  destruct (@disabled_level_never_escalates P w Hl) as (_ & _ & Hrun).
  apply (Hrun [api_stream_synchronize 7;
               api_memcpy_and_sync 1 2 16 cudaMemcpyHostToDevice 7]).
  reflexivity.
Defined.

Lemma error_level_raises_before_runtime_call_witness :
  let P := sim_platform None in
  let w := sim_world_at_level None L_ERROR sim_two_devices in
  current_level w = L_ERROR /\
  fst (stream_synchronize 7 w) = Raised SyncEscalationError /\
  runtime_calls (trace (snd (stream_synchronize 7 w))) = [].
Proof.
  intros P w.
  assert (Hl : current_level w = L_ERROR) by reflexivity.
  split; [exact Hl | ].
  destruct (@error_level_raises_before_runtime_call P w Hl) as [_ Hs].
  destruct (Hs 7) as (Hraise & _ & _ & Hcalls & _).
  split; [exact Hraise | exact Hcalls].
Defined.

Lemma warn_level_hook_fires_and_call_completes_witness :
  let P := sim_platform None in
  let w := sim_world_at_level None L_WARN sim_two_devices in
  current_level w = L_WARN /\
  fst (stream_synchronize 7 w) = Returned tt /\
  fst (memcpy_and_sync 1 2 16 cudaMemcpyHostToDevice 7 w) = Returned tt.
Proof.
  intros P w.
  assert (Hl : current_level w = L_WARN) by reflexivity.
  split; [exact Hl | ].
  destruct (@warn_level_hook_fires_and_call_completes P w Hl) as [Hs Hm].
  split.
  - destruct (Hs 7) as (_ & _ & _ & Hok). apply Hok. reflexivity.
  - destruct (Hm 1 2 16 cudaMemcpyHostToDevice 7 eq_refl) as [Hok _].
    exact Hok.
Defined.

(** Both sides of the version test: with [HIP_VERSION] 301 the one
    combined call, with 300 and with no [HIP_VERSION] the two calls. *)
Lemma memcpy_and_sync_runtime_calls_witness :
  let call hip :=
    runtime_calls
      (trace (snd (@memcpy_and_sync (sim_platform hip) 1 2 16
                     cudaMemcpyHostToDevice 7
                     (sim_world hip sim_two_devices)))) in
  (current_level (sim_world None sim_two_devices) <> L_ERROR /\
   0 <= 16 <= INT64_MAX) /\
  call (Some 301) = [hipMemcpyWithStream 1 2 16 cudaMemcpyHostToDevice 7] /\
  call (Some 300) = [cudaMemcpyAsync 1 2 16 cudaMemcpyHostToDevice 7;
                     cudaStreamSynchronize 7] /\
  call None = [cudaMemcpyAsync 1 2 16 cudaMemcpyHostToDevice 7;
               cudaStreamSynchronize 7].
Proof.
  intros call.
  assert (Hl : forall hip,
            current_level (sim_world hip sim_two_devices) <> L_ERROR)
    by (intros hip; vm_compute; discriminate).
  assert (Hn : 0 <= 16 <= INT64_MAX) by (unfold INT64_MAX; lia).
  split; [split; [apply Hl | exact Hn] | ].
  split; [ | split].
  - destruct (@memcpy_and_sync_runtime_calls (sim_platform (Some 301))
                (sim_world (Some 301) sim_two_devices) 1 2 16
                cudaMemcpyHostToDevice 7 (Hl (Some 301)) Hn) as [Hhip _].
    destruct (Hhip 301 eq_refl ltac:(lia)) as [Hcalls _]. exact Hcalls.
  - destruct (@memcpy_and_sync_runtime_calls (sim_platform (Some 300))
                (sim_world (Some 300) sim_two_devices) 1 2 16
                cudaMemcpyHostToDevice 7 (Hl (Some 300)) Hn) as [_ Hcuda].
    assert (Hlow : @HIP_VERSION (sim_platform (Some 300)) = None \/
                   exists v, @HIP_VERSION (sim_platform (Some 300)) = Some v
                             /\ v < 301).
    { right. exists 300. split; [reflexivity | lia]. }
    exact (proj1 (Hcuda Hlow)).
  - destruct (@memcpy_and_sync_runtime_calls (sim_platform None)
                (sim_world None sim_two_devices) 1 2 16
                cudaMemcpyHostToDevice 7 (Hl None) Hn) as [_ Hcuda].
    exact (proj1 (Hcuda (or_introl eq_refl))).
Defined.

(** ** The wrappers as one protocol *)

Section WrapperProperties.

Context {P : Platform}.
Local Open Scope cxx_scope.

Lemma after_calls_trace cs :
  forall w, trace (after_calls cs w) = trace w ++ map EvRuntime cs.
Proof.
  unfold after_calls. induction cs as [ | c cs IH]; intros w; simpl.
  - symmetry. apply app_nil_r.
  - rewrite IH. simpl. rewrite <- app_assoc. reflexivity.
Qed.

Lemma after_calls_runtime cs :
  forall w, runtime (after_calls cs w) = rt_run cs (runtime w).
Proof.
  unfold after_calls, rt_run.
  induction cs as [ | c cs IH]; intros w; simpl; [reflexivity | ].
  rewrite IH. reflexivity.
Qed.

Lemma after_calls_statics cs :
  forall w,
    warning_state_static (after_calls cs w) = warning_state_static w /\
    device_count_static (after_calls cs w) = device_count_static w.
Proof.
  unfold after_calls.
  induction cs as [ | c cs IH]; intros w; simpl; [split; reflexivity | ].
  destruct (IH (after_call c w)) as [H1 H2]. rewrite H1, H2.
  split; reflexivity.
Qed.

Lemma runtime_calls_map cs : runtime_calls (map EvRuntime cs) = cs.
Proof. induction cs as [ | c cs IH]; simpl; congruence. Qed.

Lemma escalations_map cs : filter is_escalation (map EvRuntime cs) = [].
Proof. induction cs as [ | c cs IH]; simpl; auto. Qed.

Lemma runtime_calls_policy_events l : runtime_calls (policy_events l) = [].
Proof. destruct l; reflexivity. Qed.

Lemma escalations_policy_events l :
  List.length (filter is_escalation (policy_events l))
  = if SyncWarningLevel_neb l L_DISABLED then 1%nat else O.
Proof. destruct l; reflexivity. Qed.

Lemma calls_made_le plan : forall r, (calls_made plan r <= List.length plan)%nat.
Proof.
  induction plan as [ | c plan IH]; intros r; simpl; [lia | ].
  destruct (rt_status c r =? cudaSuccess); [ | lia].
  specialize (IH (rt_next c r)). lia.
Qed.

Lemma calls_made_pos plan r : plan <> [] -> calls_made plan r <> O.
Proof. destruct plan; [contradiction | discriminate]. Qed.

Lemma plan_outcome_returned plan :
  forall r, plan_outcome plan r = Returned tt <-> runtime_accepts plan r = true.
Proof.
  induction plan as [ | c plan IH]; intros r; simpl; [tauto | ].
  destruct (rt_status c r =? cudaSuccess); simpl; [apply IH | ].
  split; discriminate.
Qed.

Lemma plan_outcome_raised plan :
  forall r e,
    plan_outcome plan r = Raised e ->
    exists code,
      code <> cudaSuccess /\ e = RuntimeError code (cudaGetErrorString code).
Proof.
  induction plan as [ | c plan IH]; intros r e; simpl; [discriminate | ].
  destruct (Z.eqb_spec (rt_status c r) cudaSuccess) as [Hs | Hs].
  - apply IH.
  - intros H. injection H as <-. eauto.
Qed.

(** [stream_synchronize] is the protocol on its one synchronize call. *)
Lemma stream_synchronize_protocol stream w :
  stream_synchronize stream w = protocol [cudaStreamSynchronize stream] w.
Proof.
  rewrite stream_synchronize_run. unfold protocol.
  destruct (current_level w); rewrite ?checked_call_run;
    cbn [plan_outcome calls_made runtime after_policy_check];
    unfold status_result;
    try (destruct (rt_status (cudaStreamSynchronize stream) (runtime w)
                   =? cudaSuccess));
    reflexivity.
Qed.

(** [memcpy_and_sync] is the protocol on its plan of calls. *)
Lemma memcpy_and_sync_protocol dst src nbytes kind stream w :
  memcpy_and_sync dst src nbytes kind stream w
  = protocol (memcpy_plan dst src nbytes kind stream) w.
Proof.
  unfold memcpy_and_sync. rewrite sync_policy_run.
  unfold protocol, memcpy_plan.
  destruct (current_level w); [ | | reflexivity];
    rewrite memcpy_phase_run; cbn [runtime after_policy_check];
    destruct hip_has_memcpy_with_stream;
    cbn [plan_outcome calls_made]; unfold status_result;
    repeat (destruct (_ =? cudaSuccess)); reflexivity.
Qed.

(** What a run of the protocol leaves behind. *)
Lemma protocol_shape plan w :
  plan <> [] ->
  exists k,
    (k <= List.length plan)%nat /\
    (k = O <-> current_level w = L_ERROR) /\
    trace (snd (protocol plan w))
    = trace w ++ policy_events (current_level w)
        ++ map EvRuntime (firstn k plan) /\
    runtime (snd (protocol plan w)) = rt_run (firstn k plan) (runtime w) /\
    device_count_static (snd (protocol plan w)) = device_count_static w /\
    current_level (snd (protocol plan w)) = current_level w.
Proof.
  intros Hplan. unfold protocol.
  pose proof (calls_made_le plan (runtime w)) as Hle.
  pose proof (calls_made_pos plan (runtime w) Hplan) as Hpos.
  destruct (current_level w) eqn:El.
  1, 2: exists (calls_made plan (runtime w)); cbn [snd];
    destruct (after_calls_statics
                (firstn (calls_made plan (runtime w)) plan)
                (after_policy_check (policy_events (current_level w)) w))
      as [Hws Hdc];
    rewrite El in Hws, Hdc;
    split; [exact Hle | ];
    split; [split; [contradiction | discriminate] | ];
    rewrite after_calls_trace, after_calls_runtime;
    split; [cbn; rewrite <- ?app_assoc, ?app_nil_r; reflexivity | ];
    split; [reflexivity | ];
    split; [rewrite Hdc; reflexivity | ];
    unfold current_level at 1; rewrite Hws; cbn; exact El.
  exists O. cbn [snd firstn map].
  split; [lia | ]. split; [tauto | ].
  split; [reflexivity | ].
  split; [reflexivity | ].
  split; [reflexivity | ].
  unfold current_level at 1. cbn. exact El.
Qed.

(** How a run of the protocol ends. *)
Lemma protocol_outcome plan w :
  (fst (protocol plan w) = Returned tt <->
   current_level w <> L_ERROR /\ runtime_accepts plan (runtime w) = true) /\
  (forall e,
     fst (protocol plan w) = Raised e ->
     (e = SyncEscalationError /\ current_level w = L_ERROR) \/
     (current_level w <> L_ERROR /\
      exists code,
        code <> cudaSuccess /\
        e = RuntimeError code (cudaGetErrorString code))).
Proof.
  unfold protocol. pose proof (plan_outcome_returned plan (runtime w)) as Hret.
  pose proof (plan_outcome_raised plan (runtime w)) as Hraise.
  destruct (current_level w); cbn [fst].
  1, 2: split;
    [ rewrite Hret; split; [intros H; split; [discriminate | exact H] | tauto]
    | intros e He; right; split; [discriminate | apply (Hraise e He)] ].
  split.
  - split; [discriminate | intros [H _]; contradiction].
  - intros e He. left. injection He as <-. split; reflexivity.
Qed.

Lemma memcpy_plan_nonempty dst src nbytes kind stream :
  memcpy_plan dst src nbytes kind stream <> [].
Proof. unfold memcpy_plan. destruct hip_has_memcpy_with_stream; discriminate. Qed.

Lemma memcpy_plan_length dst src nbytes kind stream :
  (List.length (memcpy_plan dst src nbytes kind stream) <= 2)%nat.
Proof.
  unfold memcpy_plan. destruct hip_has_memcpy_with_stream; simpl; lia.
Qed.

Lemma protocol_runtime_calls plan w k :
  trace (snd (protocol plan w))
  = trace w ++ policy_events (current_level w) ++ map EvRuntime (firstn k plan) ->
  runtime_calls (trace (snd (protocol plan w)))
  = runtime_calls (trace w) ++ firstn k plan.
Proof.
  intros ->. rewrite !runtime_calls_app, runtime_calls_policy_events.
  rewrite runtime_calls_map. reflexivity.
Qed.

Lemma protocol_escalations plan w :
  plan <> [] ->
  count_events is_escalation (trace (snd (protocol plan w)))
  = (count_events is_escalation (trace w)
     + if SyncWarningLevel_neb (current_level w) L_DISABLED then 1 else 0)%nat.
Proof.
  intros Hplan.
  destruct (protocol_shape plan w Hplan) as (k & _ & _ & Ht & _).
  unfold count_events. rewrite Ht, !filter_app, escalations_map, app_nil_r.
  rewrite length_app, escalations_policy_events. reflexivity.
Qed.

(** X1: each call of a wrapper enters the escalation hook once when the level
    is [L_WARN] or [L_ERROR] and not at all when it is [L_DISABLED]:
    [memcpy_and_sync] does not enter it a second time for its second
    runtime call. *)
Theorem wrappers_enter_hook_once :
  forall w,
    (forall dst src nbytes kind stream,
       count_events is_escalation
         (trace (snd (memcpy_and_sync dst src nbytes kind stream w)))
       = (count_events is_escalation (trace w)
          + if SyncWarningLevel_neb (current_level w) L_DISABLED
            then 1 else 0)%nat) /\
    (forall stream,
       count_events is_escalation (trace (snd (stream_synchronize stream w)))
       = (count_events is_escalation (trace w)
          + if SyncWarningLevel_neb (current_level w) L_DISABLED
            then 1 else 0)%nat).
Proof.
  intros w. split.
  - intros dst src nbytes kind stream. rewrite memcpy_and_sync_protocol.
    apply protocol_escalations, memcpy_plan_nonempty.
  - intros stream. rewrite stream_synchronize_protocol.
    apply protocol_escalations. discriminate.
Qed.

(** X2: the runtime calls a wrapper makes are an initial part of the calls in
    its body, in program order: at most two for [memcpy_and_sync], at most
    one for [stream_synchronize], none exactly when the level is
    [L_ERROR].  The runtime is moved by these calls only, and the cached
    device count is left alone. *)
Theorem wrappers_runtime_calls_are_plan_prefix :
  forall w,
    (forall dst src nbytes kind stream,
       let out := memcpy_and_sync dst src nbytes kind stream w in
       let plan := memcpy_plan dst src nbytes kind stream in
       exists k,
         (k <= 2)%nat /\
         (k = O <-> current_level w = L_ERROR) /\
         runtime_calls (trace (snd out))
         = runtime_calls (trace w) ++ firstn k plan /\
         runtime (snd out) = rt_run (firstn k plan) (runtime w) /\
         device_count_static (snd out) = device_count_static w) /\
    (forall stream,
       let out := stream_synchronize stream w in
       let plan := [cudaStreamSynchronize stream] in
       exists k,
         (k <= 1)%nat /\
         (k = O <-> current_level w = L_ERROR) /\
         runtime_calls (trace (snd out))
         = runtime_calls (trace w) ++ firstn k plan /\
         runtime (snd out) = rt_run (firstn k plan) (runtime w) /\
         device_count_static (snd out) = device_count_static w).
Proof.
  intros w. split.
  - intros dst src nbytes kind stream out plan. subst out plan.
    rewrite memcpy_and_sync_protocol.
    destruct (protocol_shape _ w (memcpy_plan_nonempty dst src nbytes kind stream))
      as (k & Hk & H0 & Ht & Hr & Hd & _).
    pose proof (memcpy_plan_length dst src nbytes kind stream) as Hlen.
    exists k. split; [lia | ]. split; [exact H0 | ].
    split; [apply protocol_runtime_calls, Ht | ]. split; assumption.
  - intros stream out plan. subst out plan.
    rewrite stream_synchronize_protocol.
    destruct (protocol_shape [cudaStreamSynchronize stream] w ltac:(discriminate))
      as (k & Hk & H0 & Ht & Hr & Hd & _).
    exists k. split; [exact Hk | ]. split; [exact H0 | ].
    split; [apply protocol_runtime_calls, Ht | ]. split; assumption.
Qed.

(** X3: which copy primitive a build uses: [memcpy_and_sync] makes no call but
    [hipMemcpyWithStream] where [HIP_VERSION] is defined and at least 301,
    and never calls [hipMemcpyWithStream] where it is undefined or
    smaller. *)
Theorem memcpy_and_sync_build_gating :
  forall w dst src nbytes kind stream,
  exists added,
    runtime_calls (trace (snd (memcpy_and_sync dst src nbytes kind stream w)))
    = runtime_calls (trace w) ++ added /\
    ((exists v, HIP_VERSION = Some v /\ 301 <= v) ->
     Forall (fun c => is_hip_call c = true) added) /\
    ((HIP_VERSION = None \/ exists v, HIP_VERSION = Some v /\ v < 301) ->
     Forall (fun c => is_hip_call c = false) added).
Proof.
  intros w dst src nbytes kind stream. rewrite memcpy_and_sync_protocol.
  destruct (protocol_shape _ w (memcpy_plan_nonempty dst src nbytes kind stream))
    as (k & _ & _ & Ht & _).
  exists (firstn k (memcpy_plan dst src nbytes kind stream)).
  split; [apply protocol_runtime_calls, Ht | ].
  assert (Hsub : forall (q : RuntimeCall -> Prop),
            Forall q (memcpy_plan dst src nbytes kind stream) ->
            Forall q (firstn k (memcpy_plan dst src nbytes kind stream))).
  { intros q Hq.
    rewrite <- (firstn_skipn k (memcpy_plan dst src nbytes kind stream)) in Hq.
    apply Forall_app in Hq. exact (proj1 Hq). }
  unfold memcpy_plan, hip_has_memcpy_with_stream in *.
  split.
  - intros (v & Hv & Hge). apply Hsub. rewrite Hv.
    destruct (Z.leb_spec 301 v); [ | lia].
    repeat constructor.
  - intros Hlow. apply Hsub.
    destruct Hlow as [Hn | (v & Hv & Hlt)].
    + rewrite Hn. repeat constructor.
    + rewrite Hv. destruct (Z.leb_spec 301 v); [lia | ].
      repeat constructor.
Qed.

Lemma size_t_of_int64_cases n :
  INT64_MIN <= n <= INT64_MAX ->
  size_t_of_int64 n = (if n <? 0 then n + 2 ^ 64 else n) /\
  0 <= size_t_of_int64 n < 2 ^ 64.
Proof.
  unfold INT64_MIN, INT64_MAX, size_t_of_int64. intros H.
  split; [ | apply Z.mod_pos_bound; lia].
  destruct (Z.ltb_spec n 0).
  - symmetry. apply Z.mod_unique with (q := -1); lia.
  - apply Z.mod_small. lia.
Qed.

(** X4: the byte count is not checked by [memcpy_and_sync]: whatever [int64_t]
    value it is given, once the policy check is passed the copy call is
    made, with the count converted to [size_t].  A non-negative count goes
    through as it is; a negative one reaches the runtime as
    [nbytes + 2^64], a count of at least [2^63]. *)
Theorem memcpy_and_sync_byte_count_conversion :
  forall w dst src nbytes kind stream,
    current_level w <> L_ERROR ->
    INT64_MIN <= nbytes <= INT64_MAX ->
    let count := if nbytes <? 0 then nbytes + 2 ^ 64 else nbytes in
    let copy :=
      if hip_has_memcpy_with_stream
      then hipMemcpyWithStream dst src count kind stream
      else cudaMemcpyAsync dst src count kind stream in
    0 <= count < 2 ^ 64 /\
    (nbytes < 0 -> 2 ^ 63 <= count) /\
    exists rest,
      runtime_calls (trace (snd (memcpy_and_sync dst src nbytes kind stream w)))
      = runtime_calls (trace w) ++ copy :: rest.
Proof.
  intros w dst src nbytes kind stream Hl Hn count copy.
  destruct (size_t_of_int64_cases nbytes Hn) as [Hconv Hrange].
  fold count in Hconv. rewrite Hconv in Hrange.
  split; [exact Hrange | ].
  split.
  { intros Hneg. subst count. unfold INT64_MIN in Hn.
    destruct (Z.ltb_spec nbytes 0); lia. }
  rewrite memcpy_and_sync_protocol.
  destruct (protocol_shape _ w (memcpy_plan_nonempty dst src nbytes kind stream))
    as (k & _ & H0 & Ht & _).
  rewrite (protocol_runtime_calls _ w k Ht).
  destruct k as [ | k]; [exfalso; apply Hl, H0; reflexivity | ].
  subst copy. unfold memcpy_plan. rewrite Hconv.
  destruct hip_has_memcpy_with_stream; cbn [firstn]; eauto.
Qed.

(** X5: when the wrappers return and what they raise.  A wrapper returns
    normally exactly when the level is not [L_ERROR] and the runtime
    answers every call of its body with success.  What it raises is the
    hook's exception, exactly at level [L_ERROR], or a [RuntimeError] with
    a non-success status; for [stream_synchronize] that status is the one
    [cudaStreamSynchronize] gave. *)
Theorem wrappers_outcomes :
  forall w,
    (forall dst src nbytes kind stream,
       let out := memcpy_and_sync dst src nbytes kind stream w in
       (fst out = Returned tt <->
        current_level w <> L_ERROR /\
        runtime_accepts (memcpy_plan dst src nbytes kind stream) (runtime w)
        = true) /\
       (forall e,
          fst out = Raised e ->
          (e = SyncEscalationError /\ current_level w = L_ERROR) \/
          (current_level w <> L_ERROR /\
           exists code,
             code <> cudaSuccess /\
             e = RuntimeError code (cudaGetErrorString code)))) /\
    (forall stream,
       let out := stream_synchronize stream w in
       let status := rt_status (cudaStreamSynchronize stream) (runtime w) in
       (fst out = Returned tt <->
        current_level w <> L_ERROR /\ status = cudaSuccess) /\
       (forall e,
          fst out = Raised e ->
          (e = SyncEscalationError /\ current_level w = L_ERROR) \/
          (current_level w <> L_ERROR /\ status <> cudaSuccess /\
           e = RuntimeError status (cudaGetErrorString status)))).
Proof.
  intros w. split.
  - intros dst src nbytes kind stream out. subst out.
    rewrite memcpy_and_sync_protocol. apply protocol_outcome.
  - intros stream out status. subst out status.
    rewrite stream_synchronize_protocol.
    destruct (protocol_outcome [cudaStreamSynchronize stream] w) as [Hret _].
    split.
    + rewrite Hret. cbn [runtime_accepts]. rewrite andb_true_r, Z.eqb_eq.
      reflexivity.
    + unfold protocol. intros e.
      destruct (current_level w); cbn [fst plan_outcome].
      1, 2: destruct (Z.eqb_spec
                        (rt_status (cudaStreamSynchronize stream) (runtime w))
                        cudaSuccess) as [Hs | Hs];
        [discriminate | ];
        intros He; injection He as <-; right;
        (split; [discriminate | split; [exact Hs | reflexivity]]).
      intros He. injection He as <-. left. split; reflexivity.
Qed.

(** X6: level [L_WARN] changes nothing but the log: started on the same
    runtime state, a wrapper call at [L_WARN] and one at [L_DISABLED] end
    the same way, make the same runtime calls and leave the runtime in the
    same state. *)
Theorem warn_level_is_transparent :
  forall w1 w2,
    runtime w1 = runtime w2 ->
    current_level w1 = L_DISABLED ->
    current_level w2 = L_WARN ->
    (forall dst src nbytes kind stream,
       let out1 := memcpy_and_sync dst src nbytes kind stream w1 in
       let out2 := memcpy_and_sync dst src nbytes kind stream w2 in
       fst out1 = fst out2 /\
       runtime (snd out1) = runtime (snd out2) /\
       exists added,
         runtime_calls (trace (snd out1)) = runtime_calls (trace w1) ++ added /\
         runtime_calls (trace (snd out2)) = runtime_calls (trace w2) ++ added) /\
    (forall stream,
       let out1 := stream_synchronize stream w1 in
       let out2 := stream_synchronize stream w2 in
       fst out1 = fst out2 /\
       runtime (snd out1) = runtime (snd out2) /\
       exists added,
         runtime_calls (trace (snd out1)) = runtime_calls (trace w1) ++ added /\
         runtime_calls (trace (snd out2)) = runtime_calls (trace w2) ++ added).
Proof.
  intros w1 w2 Hr H1 H2.
  assert (Hgen : forall plan,
            fst (protocol plan w1) = fst (protocol plan w2) /\
            runtime (snd (protocol plan w1)) = runtime (snd (protocol plan w2)) /\
            exists added,
              runtime_calls (trace (snd (protocol plan w1)))
              = runtime_calls (trace w1) ++ added /\
              runtime_calls (trace (snd (protocol plan w2)))
              = runtime_calls (trace w2) ++ added).
  { intros plan. unfold protocol. rewrite H1, H2, Hr. cbn [fst snd].
    split; [reflexivity | ].
    rewrite !after_calls_runtime. cbn [runtime after_policy_check].
    rewrite Hr. split; [reflexivity | ].
    exists (firstn (calls_made plan (runtime w2)) plan).
    rewrite !after_calls_trace. cbn [trace after_policy_check policy_events].
    rewrite !runtime_calls_app, !runtime_calls_map. cbn.
    rewrite !app_nil_r. split; reflexivity. }
  split.
  - intros dst src nbytes kind stream out1 out2. subst out1 out2.
    rewrite !memcpy_and_sync_protocol. apply Hgen.
  - intros stream out1 out2. subst out1 out2.
    rewrite !stream_synchronize_protocol. apply Hgen.
Qed.

Lemma exec_sync_call_at_error c w :
  is_sync_call c = true ->
  current_level w = L_ERROR ->
  exec c w
  = (Raised SyncEscalationError, after_policy_check [EvEscalation] w).
Proof.
  intros Hc Hl. destruct c; try discriminate; cbn [exec]; unfold bind.
  - rewrite memcpy_and_sync_protocol. unfold protocol. rewrite Hl. reflexivity.
  - rewrite stream_synchronize_protocol. unfold protocol. rewrite Hl.
    reflexivity.
Qed.

(** X7: level [L_ERROR] blocks the wrappers for good: over any sequence of
    calls of [memcpy_and_sync] and [stream_synchronize] every call raises
    the hook's exception, the hook is entered once per call, no runtime
    call is made, the runtime stays in its state, and the level is still
    [L_ERROR] at the end. *)
Theorem error_level_blocks_every_sync_call :
  forall calls w,
    current_level w = L_ERROR ->
    forallb is_sync_call calls = true ->
    let out := run calls w in
    Forall (fun entry => snd entry = Raised SyncEscalationError) (fst out) /\
    runtime (snd out) = runtime w /\
    runtime_calls (trace (snd out)) = runtime_calls (trace w) /\
    count_events is_escalation (trace (snd out))
    = (count_events is_escalation (trace w) + List.length calls)%nat /\
    current_level (snd out) = L_ERROR.
Proof.
  induction calls as [ | c rest IH]; intros w Hl Hsync out; subst out.
  - cbn. repeat split; auto.
  - cbn [forallb] in Hsync. apply andb_true_iff in Hsync.
    destruct Hsync as [Hc Hrest].
    cbn [run]. rewrite (exec_sync_call_at_error c w Hc Hl).
    assert (Hl1 : current_level (after_policy_check [EvEscalation] w)
                  = L_ERROR).
    { unfold current_level at 1. cbn. exact Hl. }
    specialize (IH (after_policy_check [EvEscalation] w) Hl1 Hrest).
    cbn zeta in IH.
    destruct (run rest (after_policy_check [EvEscalation] w)) as [log w2].
    cbn [fst snd] in *.
    destruct IH as (Hall & Hr & Hcalls & Hcount & Hlevel).
    split; [constructor; [reflexivity | exact Hall] | ].
    split; [exact Hr | ].
    split.
    { rewrite Hcalls. cbn [trace after_policy_check].
      rewrite runtime_calls_app. apply app_nil_r. }
    split; [ | exact Hlevel].
    rewrite Hcount. unfold count_events. cbn [trace after_policy_check].
    rewrite filter_snoc_true by reflexivity.
    rewrite length_app. cbn. lia.
Qed.

(** *** The level is what the last setter call made it *)

Lemma same_level_refl w : same_level w w.
Proof. reflexivity. Qed.

Lemma same_level_trans a b c :
  same_level a b -> same_level b c -> same_level a c.
Proof. unfold same_level. congruence. Qed.

Lemma level_bind {A B} (m : M A) (k : A -> M B) :
  respects same_level m -> (forall a, respects same_level (k a)) ->
  respects same_level (bind m k).
Proof. apply respects_bind, same_level_trans. Qed.

Lemma level_ret {A} (a : A) : respects same_level (ret a).
Proof. apply respects_ret, same_level_refl. Qed.

Lemma level_raise {A} e : respects same_level (@raise _ A e).
Proof. apply respects_raise, same_level_refl. Qed.

Lemma level_emit e : respects same_level (emit e).
Proof. intros w. reflexivity. Qed.

Lemma level_check_status st : respects same_level (check_status st).
Proof.
  unfold check_status. destruct (st =? cudaSuccess);
    [apply level_ret | apply level_raise].
Qed.

Lemma level_runtime_call c : respects same_level (runtime_call c).
Proof. intros w. rewrite runtime_call_run. reflexivity. Qed.

Lemma level_checked_call c :
  respects same_level (C10_CUDA_CHECK (runtime_call c)).
Proof. intros w. rewrite checked_call_run. reflexivity. Qed.

Lemma level_warning_state : respects same_level warning_state.
Proof.
  intros w. destruct (warning_state_run w) as (w1 & Hrun & Hws & _).
  rewrite Hrun. unfold same_level. cbn [snd].
  unfold current_level at 1. rewrite Hws. reflexivity.
Qed.

Lemma level_device_count : respects same_level device_count.
Proof.
  intros w. unfold device_count.
  destruct (device_count_static w); [reflexivity | ].
  revert w. apply level_bind.
  - apply respects_try_catch; [apply same_level_trans | | ].
    + unfold query_device_count.
      apply level_bind; [apply level_runtime_call | intros r].
      apply level_bind; [apply level_check_status | intros _].
      apply level_ret.
    + intros e. apply level_bind; [apply level_emit | intros _].
      apply level_ret.
  - intros n. apply level_bind; [ | intros _; apply level_ret].
    intros w. reflexivity.
Qed.

(** What one call does to the level. *)
Lemma exec_level c w :
  current_level (snd (exec c w))
  = match c with
    | api_set_sync_warning_level l => l
    | _ => current_level w
    end.
Proof.
  destruct c; cbn [exec]; rewrite ?snd_bind_ret.
  - revert w. apply level_bind; [apply level_device_count | ].
    intros n. apply level_ret.
  - revert w. apply level_bind; [ | intros n; apply level_ret].
    unfold device_count_ensure_non_zero.
    apply level_bind; [apply level_device_count | intros n].
    destruct (n =? 0); [apply level_raise | apply level_ret].
  - revert w. apply level_bind; [ | intros n; apply level_ret].
    unfold current_device.
    apply level_bind; [apply level_runtime_call | intros r].
    apply level_bind; [apply level_check_status | intros _].
    apply level_ret.
  - apply level_checked_call.
  - apply level_checked_call.
  - revert w. apply level_bind; [ | intros n; apply level_ret].
    unfold call_get_sync_warning_level.
    apply level_bind; [apply level_warning_state | intros s].
    apply level_ret.
  - apply WarningState_run_set.
  - rewrite memcpy_and_sync_protocol.
    destruct (protocol_shape _ w
                (memcpy_plan_nonempty dst src nbytes kind stream))
      as (k & _ & _ & _ & _ & _ & Hl).
    exact Hl.
  - rewrite stream_synchronize_protocol.
    destruct (protocol_shape [cudaStreamSynchronize stream] w
                ltac:(discriminate))
      as (k & _ & _ & _ & _ & _ & Hl).
    exact Hl.
Qed.

(** X8: only [set_sync_warning_level] changes the warning level: after any
    sequence of calls on the exposed operations, whether they returned or
    raised, the level is the one the last setter call in the sequence set,
    and the starting level if there was none; a read then returns it. *)
Theorem warning_level_is_last_set :
  forall calls w,
    current_level (snd (run calls w))
    = last_set_level calls (current_level w) /\
    fst (call_get_sync_warning_level (snd (run calls w)))
    = Returned (last_set_level calls (current_level w)).
Proof.
  assert (Hlevel : forall calls w,
            current_level (snd (run calls w))
            = last_set_level calls (current_level w)).
  { induction calls as [ | c rest IH]; intros w; [reflexivity | ].
    cbn [run]. pose proof (exec_level c w) as Hc.
    destruct (exec c w) as [r w1]. cbn [snd] in Hc.
    specialize (IH w1). destruct (run rest w1) as [log w2].
    cbn [snd] in *. rewrite IH, Hc.
    destruct c; reflexivity. }
  intros calls w. split; [apply Hlevel | ].
  unfold call_get_sync_warning_level, bind.
  destruct (warning_state_run (snd (run calls w))) as (w1 & Hrun & _).
  rewrite Hrun. cbn. rewrite Hlevel. reflexivity.
Qed.

End WrapperProperties.

(** ** The protocol properties on the simulated runtime *)

Lemma memcpy_and_sync_build_gating_witness :
  let P := sim_platform (Some 400) in
  let w := sim_world (Some 400) sim_two_devices in
  exists added,
    runtime_calls
      (trace (snd (memcpy_and_sync 1 2 16 cudaMemcpyHostToDevice 7 w)))
    = runtime_calls (trace w) ++ added /\
    Forall (fun c => is_hip_call c = true) added.
Proof.
  intros P w.
  destruct (@memcpy_and_sync_build_gating P w 1 2 16 cudaMemcpyHostToDevice 7)
    as (added & Hcalls & Hhip & _).
  exists added. split; [exact Hcalls | ].
  apply Hhip. exists 400. split; [reflexivity | lia].
Defined.

(** A byte count of -1 reaches the runtime as 2^64 - 1. *)
Lemma memcpy_and_sync_byte_count_conversion_witness :
  let P := sim_platform None in
  let w := sim_world None sim_two_devices in
  (current_level w <> L_ERROR /\ INT64_MIN <= -1 <= INT64_MAX) /\
  exists rest,
    runtime_calls
      (trace (snd (memcpy_and_sync 1 2 (-1) cudaMemcpyHostToDevice 7 w)))
    = cudaMemcpyAsync 1 2 18446744073709551615 cudaMemcpyHostToDevice 7
        :: rest.
Proof.
  intros P w.
  assert (Hl : current_level w <> L_ERROR) by (vm_compute; discriminate).
  assert (Hn : INT64_MIN <= -1 <= INT64_MAX)
    by (unfold INT64_MIN, INT64_MAX; lia).
  split; [split; assumption | ].
  destruct (@memcpy_and_sync_byte_count_conversion P w 1 2 (-1)
              cudaMemcpyHostToDevice 7 Hl Hn) as (_ & _ & rest & Hcalls).
  exists rest. exact Hcalls.
Defined.

Lemma wrappers_outcomes_witness :
  let P := sim_platform None in
  let w := sim_world_at_level None L_WARN sim_two_devices in
  fst (stream_synchronize 7 w) = Returned tt.
Proof.
  intros P w.
  destruct (@wrappers_outcomes P w) as [_ Hs].
  destruct (Hs 7) as [Hiff _]. apply Hiff.
  split; [vm_compute; discriminate | reflexivity].
Defined.

Lemma warn_level_is_transparent_witness :
  let P := sim_platform None in
  let w1 := sim_world None sim_two_devices in
  let w2 := sim_world_at_level None L_WARN sim_two_devices in
  (runtime w1 = runtime w2 /\
   current_level w1 = L_DISABLED /\ current_level w2 = L_WARN) /\
  fst (memcpy_and_sync 1 2 16 cudaMemcpyHostToDevice 7 w1)
  = fst (memcpy_and_sync 1 2 16 cudaMemcpyHostToDevice 7 w2).
Proof.
  intros P w1 w2.
  assert (Hr : runtime w1 = runtime w2) by reflexivity.
  assert (H1 : current_level w1 = L_DISABLED) by reflexivity.
  assert (H2 : current_level w2 = L_WARN) by reflexivity.
  split; [repeat split; assumption | ].
  destruct (@warn_level_is_transparent P w1 w2 Hr H1 H2) as [Hm _].
  destruct (Hm 1 2 16 cudaMemcpyHostToDevice 7) as [Hout _]. exact Hout.
Defined.

Lemma error_level_blocks_every_sync_call_witness :
  let P := sim_platform None in
  let w := sim_world_at_level None L_ERROR sim_two_devices in
  let calls := [api_stream_synchronize 7;
                api_memcpy_and_sync 1 2 16 cudaMemcpyHostToDevice 7] in
  (current_level w = L_ERROR /\ forallb is_sync_call calls = true) /\
  runtime (snd (run calls w)) = sim_two_devices /\
  count_events is_escalation (trace (snd (run calls w))) = 2%nat.
Proof.
  intros P w calls.
  assert (Hl : current_level w = L_ERROR) by reflexivity.
  assert (Hc : forallb is_sync_call calls = true) by reflexivity.
  split; [split; assumption | ].
  destruct (@error_level_blocks_every_sync_call P calls w Hl Hc)
    as (_ & Hr & _ & Hcount & _).
  split; [exact Hr | exact Hcount].
Defined.
